(** * Base-normalization: the stream-to-model compiler

    A shallow embedding of
    [normalization/transform_catalog/stream_processor.py]:
    the nested-property discovery helper, child discovery, the four
    generated SQL models of a stream and the allocation of table names
    in the shared table context. *)

From Stdlib Require Import String Ascii List Bool Arith Lia DecimalString.
From stdpp Require Import base option list gmap strings.

Open Scope string_scope.
Open Scope list_scope.
Set Warnings "-register-all,-clear-no-such-hyp".

(** ** Python values and exceptions *)

(** What [json.load] can put in a catalog: the values the schema
    dictionaries are made of. A [dict] keeps its insertion order, so it is
    an association list, whose keys are pairwise distinct in a value that
    comes from Python; a float only carries a mantissa and an exponent,
    no operation below looks further at them. *)
Inductive json : Type :=
| JNull
| JBool (b : bool)
| JInt (z : Z)
| JFloat (m e : Z)
| JStr (s : string)
| JList (l : list json)
| JDict (d : list (string * json)).

(** The exceptions the embedded code can raise. *)
Inductive py_error : Type :=
| KeyError (msg : string)
| TypeError
| AttributeError.

Inductive py_result (A : Type) : Type :=
| Ok (a : A)
| Err (e : py_error).
Arguments Ok {A} a.
Arguments Err {A} e.

Definition result_bind {A B} (m : py_result A) (f : A -> py_result B) : py_result B :=
  match m with
  | Ok a => f a
  | Err e => Err e
  end.

Module PyDict.

(** [d[k]] and [k in d] on an insertion-ordered dict. *)
Fixpoint get (k : string) (d : list (string * json)) : option json :=
  match d with
  | [] => None
  | (k', v) :: d' => if String.eqb k k' then Some v else get k d'
  end.

Definition mem (k : string) (d : list (string * json)) : bool :=
  match get k d with Some _ => true | None => false end.

Definition keys (d : list (string * json)) : list string := map fst d.

(** [d[k] = v]: an existing key keeps its position. *)
Fixpoint set (k : string) (v : json) (d : list (string * json))
  : list (string * json) :=
  match d with
  | [] => [(k, v)]
  | (k', v') :: d' =>
      if String.eqb k k' then (k, v) :: d' else (k', v') :: set k v d'
  end.

(** [d.update(other)]. *)
Definition update (d other : list (string * json)) : list (string * json) :=
  fold_left (fun acc kv => set (fst kv) (snd kv) acc) other d.

End PyDict.

(** [s == x] for a [str] s and any value x. *)
Definition str_eq (s : string) (x : json) : bool :=
  match x with
  | JStr s' => String.eqb s s'
  | _ => false
  end.

(** [s in s'] on two [str]: s occurs in s'. *)
Definition is_substring (s s' : string) : bool :=
  match String.index 0 s s' with
  | Some _ => true
  | None => match s with EmptyString => true | _ => false end
  end.

(** [k in x], for a [str] k. *)
Definition py_contains (k : string) (x : json) : py_result bool :=
  match x with
  | JDict d => Ok (PyDict.mem k d)
  | JList l => Ok (existsb (str_eq k) l)
  | JStr s => Ok (is_substring k s)
  | JNull | JBool _ | JInt _ | JFloat _ _ => Err TypeError
  end.

(** [x[k]], for a [str] k. *)
Definition py_getitem (k : string) (x : json) : py_result json :=
  match x with
  | JDict d =>
      match PyDict.get k d with
      | Some v => Ok v
      | None => Err (KeyError k)
      end
  | _ => Err TypeError
  end.

(** Truth value of a Python object ([if x:], [not x]). *)
Definition truthy (x : json) : bool :=
  match x with
  | JNull => false
  | JBool b => b
  | JInt z => negb (Z.eqb z 0)
  | JFloat m _ => negb (Z.eqb m 0)
  | JStr s => negb (String.eqb s "")
  | JList l => match l with [] => false | _ => true end
  | JDict d => match d with [] => false | _ => true end
  end.

(** ["_".join(l)] and friends. *)
Fixpoint join (sep : string) (l : list string) : string :=
  match l with
  | [] => ""
  | [x] => x
  | x :: rest => x +:+ sep +:+ join sep rest
  end.

(** [str(i)] for the loop counter. *)
Definition str_of_nat (i : nat) : string :=
  NilEmpty.string_of_uint (Nat.to_uint i).

#[global] Instance result_ret : MRet py_result := fun A a => Ok a.
#[global] Instance result_mbind : MBind py_result :=
  fun A B f m => result_bind m f.

(** ** Effects: standard output, written files, the table context *)

(** One call of [output_sql_file]: the directory (the components given to
    [os.path.join]), the file name, the header and the SQL text handed
    over. The file system itself is not modelled. *)
Record sql_file : Type := mkSqlFile {
  file_dir : list string;
  file_name : string;
  file_json_path : string;
  file_header : string;
  file_sql : string
}.

(** [table_context] is the one set of table names shared by all
    processors; [stdout] collects the lines given to [print], [files] the
    models written, both in order. *)
Record state : Type := mkState {
  table_context : gset string;
  stdout : list string;
  files : list sql_file
}.

Definition M (A : Type) : Type := state -> py_result (A * state).

#[global] Instance M_ret : MRet M := fun A a st => Ok (a, st).
#[global] Instance M_mbind : MBind M :=
  fun A B f m st =>
    match m st with
    | Ok (a, st') => f a st'
    | Err e => Err e
    end.

Definition lift {A} (r : py_result A) : M A :=
  fun st => match r with Ok a => Ok (a, st) | Err e => Err e end.

Definition print (line : string) : M unit :=
  fun st =>
    Ok (tt, {| table_context := st.(table_context);
               stdout := st.(stdout) ++ [line];
               files := st.(files) |}).

Definition nl : string := String (ascii_of_nat 10) EmptyString.

(** ** Select lists *)

(** An entry of a generated select list: an expression with its alias, or
    a bare column. [render_item] is the text put in the model,
    [output_name] the name of the column it produces. *)
Inductive select_item : Type :=
| As (expr alias : string)
| Column (name : string).

Definition render_item (it : select_item) : string :=
  match it with
  | As expr alias => expr +:+ " as " +:+ alias
  | Column name => name
  end.


(** ** Destinations *)

(** The members of [DestinationType] that [reserved_keywords.py] keys its
    table on. *)
Inductive DestinationType : Type :=
| BIGQUERY
| POSTGRES
| REDSHIFT
| SNOWFLAKE.

(** ** The stream processor *)

(** The attributes [init] and [initFromParent] set. [parent] is the
    processor that spawned this one, [None] for a top-level stream. *)
Inductive StreamProcessor : Type := mkStreamProcessor {
  stream_name : string;
  output_directory : string;
  integration_type : DestinationType;
  raw_schema : string;
  schema : string;
  json_column_name : string;
  properties : json;
  parent : option StreamProcessor;
  is_nested_array : bool;
  json_path : list string
}.

Definition init (stream_name output_directory : string)
    (integration_type : DestinationType) (raw_schema schema : string)
    (json_column_name : string) (properties : json) : StreamProcessor :=
  {| stream_name := stream_name;
     output_directory := output_directory;
     integration_type := integration_type;
     raw_schema := raw_schema;
     schema := schema;
     json_column_name := json_column_name;
     properties := properties;
     parent := None;
     is_nested_array := false;
     json_path := [stream_name] |}.

Definition initFromParent (parent_ : StreamProcessor) (child_name : string)
    (json_column_name_ : string) (properties_ : json) (is_nested_array_ : bool)
    : StreamProcessor :=
  let self :=
    init child_name parent_.(output_directory) parent_.(integration_type)
         parent_.(raw_schema) parent_.(schema) json_column_name_ properties_ in
  {| stream_name := self.(stream_name);
     output_directory := self.(output_directory);
     integration_type := self.(integration_type);
     raw_schema := self.(raw_schema);
     schema := self.(schema);
     json_column_name := self.(json_column_name);
     properties := self.(properties);
     parent := Some parent_;
     is_nested_array := is_nested_array_;
     json_path := parent_.(json_path) ++ [child_name] |}.

(** ** An instance of the imported collaborators

    Used to run the processor on concrete catalogs. *)
Module Sample.

(** Modelled from the spec: [utils.is_airbyte_column] is not part of
    this module; internal metadata fields are "a reserved naming
    prefix", the one of [_airbyte_emitted_at]. *)
Definition is_airbyte_column (name : string) : bool :=
  String.prefix "_airbyte_" name.

(** Modelled from the spec: [utils.is_combining_node] is not part of
    this module; a field uses schema composition when it carries
    [oneOf], [anyOf] or [allOf]. *)
Definition is_combining_node (definition : json) : bool :=
  match definition with
  | JDict d =>
      PyDict.mem "anyOf" d || PyDict.mem "oneOf" d || PyDict.mem "allOf" d
  | _ => false
  end.

(** Modelled from the spec: the type tests of [utils] are not part of
    this module; a property is of a kind when its ["type"] is that name
    or a list holding it. *)
Definition is_type (name : string) (property_type : json) : bool :=
  match property_type with
  | JStr s => String.eqb name s
  | JList l => existsb (str_eq name) l
  | _ => false
  end.

Definition is_array := is_type "array".
Definition is_boolean := is_type "boolean".
Definition is_integer := is_type "integer".
Definition is_number := is_type "number".
Definition is_object := is_type "object".
Definition is_string := is_type "string".
Definition is_simple_property (property_type : json) : bool :=
  is_string property_type || is_integer property_type
  || is_number property_type || is_boolean property_type.

Definition jinja_call (command : string) : string :=
  "{{ " +:+ command +:+ " }}".

(** A transformer that leaves names alone, and quotes a column used
    inside a jinja call. *)
Definition normalize_table_name (_ : DestinationType) (name : string)
    : string := name.

Definition normalize_column_name (_ : DestinationType) (name : string)
    (in_jinja : bool) : string :=
  if in_jinja then "'" +:+ name +:+ "'" else name.

(** [str] on the values the examples print. *)
Definition py_str (x : json) : string :=
  match x with
  | JStr s => s
  | JList [JStr s] => "['" +:+ s +:+ "']"
  | _ => "?"
  end.

(** A transformer that cuts every table name down to one letter. *)
Definition truncating_table_name (_ : DestinationType) (_ : string)
    : string := "t".

Definition users (properties : json) : StreamProcessor :=
  init "users" "out" POSTGRES "_raw" "public" "_airbyte_data" properties.

Definition empty_state : state :=
  {| table_context := ∅; stdout := []; files := [] |}.

Definition string_type : json := JDict [("type", JStr "string")].

(** [users]: an id, a name and an array of addresses. *)
Definition address : list (string * json) :=
  [("street", string_type); ("city", string_type)].

Definition addresses : list (string * json) :=
  [("type", JStr "array");
   ("items", JDict [("type", JStr "object"); ("properties", JDict address)])].

Definition catalog : list (string * json) :=
  [("id", JDict [("type", JStr "integer")]);
   ("name", string_type);
   ("addresses", JDict addresses)].

(** A stream that only holds a metadata column. *)
Definition only_metadata : list (string * json) :=
  [("_airbyte_emitted_at", string_type)].

(** A stream with a field that combines schemas. *)
Definition one_of : json :=
  JDict [("type", JStr "string"); ("oneOf", JList [string_type])].




(** A stream with a field without a type and one of an unknown type. *)
Definition loose : list (string * json) :=
  [("id", JDict [("type", JStr "integer")]);
   ("blob", JDict []);
   ("day", JDict [("type", JStr "date")])].

(** The child of [users] for its addresses. *)
Definition addresses_child : StreamProcessor :=
  initFromParent (users (JDict catalog)) "addresses"
    "unnested_column_value('addresses')" (JDict address) true.

End Sample.

Section Processor.

(** *** Collaborators imported by the module

    [normalization.transform_catalog.utils] and
    [DestinationNameTransformer] are imported by [stream_processor.py];
    the development is parametric in them. The type tests are total
    tests on the value of a ["type"] entry, [is_combining_node] is the
    truth value of the set it returns, and the two normalizers belong to
    the transformer built from a processor's [integration_type]. *)
Variable is_airbyte_column : string -> bool.
Variable is_combining_node : json -> bool.
Variables is_array is_boolean is_integer is_number is_object
          is_simple_property is_string : json -> bool.
Variable jinja_call : string -> string.
Variable normalize_table_name : DestinationType -> string -> string.
Variable normalize_column_name : DestinationType -> string -> bool -> string.

(** [str] of a value, as an f-string prints it. *)
Variable py_str : json -> string.

(** *** Nested-property discovery *)

(** [find_properties_object(path, field, properties)]. The result dict
    maps a joined path to a nested [properties] value, or to [None]
    ([JNull]) for a basic type. The loop over [properties.keys()] reads
    [properties[key]] for each key, that is each entry in order. *)
Fixpoint find_properties_object (path : list string) (field : string)
    (properties : json) {struct properties}
    : py_result (list (string * json)) :=
  let current_path := path ++ [field] in
  let current := join "_" current_path in
  match properties with
  | JStr _ | JInt _ | JBool _ => Ok []
  | JNull | JFloat _ _ => Err TypeError
  | JDict d =>
      match
        (fix items_entry (d : list (string * json)) :=
           match d with
           | [] => None
           | (k, v) :: d' =>
               if String.eqb "items" k
               then Some (find_properties_object path field v)
               else items_entry d'
           end) d
      with
      | Some r => r
      | None =>
          match PyDict.get "properties" d with
          | Some p => Ok [(current, p)]
          | None =>
              if match PyDict.get "type" d with
                 | Some t => is_simple_property t
                 | None => false
                 end
              then Ok [(current, JNull)]
              else
                (fix members (d : list (string * json))
                     (result : list (string * json)) :=
                   match d with
                   | [] => Ok result
                   | (key, v) :: d' =>
                       match find_properties_object current_path key v with
                       | Err e => Err e
                       | Ok child =>
                           members d'
                             (if truthy (JDict child)
                              then PyDict.update result child
                              else result)
                       end
                   end) d []
          end
      end
  | JList l =>
      if existsb (str_eq "items") l then Err TypeError
      else if existsb (str_eq "properties") l then Err TypeError
      else if existsb (str_eq "type") l then Err TypeError
      else
        (fix each (l : list json) (result : list (string * json)) :=
           match l with
           | [] => Ok result
           | item :: l' =>
               match find_properties_object current_path field item with
               | Err e => Err e
               | Ok child =>
                   each l'
                     (if truthy (JDict child)
                      then PyDict.update result child
                      else result)
               end
           end) l []
  end.

(** The two loops of [find_properties_object], named so that statements
    can mention them. *)
Fixpoint find_in_members (current_path : list string)
    (d : list (string * json)) (result : list (string * json))
    : py_result (list (string * json)) :=
  match d with
  | [] => Ok result
  | (key, v) :: d' =>
      child ← find_properties_object current_path key v;
      find_in_members current_path d'
        (if truthy (JDict child) then PyDict.update result child else result)
  end.

Fixpoint find_in_items (current_path : list string) (field : string)
    (l : list json) (result : list (string * json))
    : py_result (list (string * json)) :=
  match l with
  | [] => Ok result
  | item :: l' =>
      child ← find_properties_object current_path field item;
      find_in_items current_path field l'
        (if truthy (JDict child) then PyDict.update result child else result)
  end.

(** *** Names *)

Definition table_name (self : StreamProcessor) : string :=
  normalize_table_name self.(integration_type) self.(stream_name).

Definition current_json_path (self : StreamProcessor) : string :=
  join "/" self.(json_path).

Definition get_schema (self : StreamProcessor) (is_intermediate : bool)
    : string :=
  if is_intermediate then self.(raw_schema) else self.(schema).

Definition sql_table_comment (self : StreamProcessor) : string :=
  if Nat.ltb 1 (List.length self.(json_path))
  then "-- " +:+ table_name self +:+ " from " +:+ current_json_path self
  else "-- " +:+ table_name self.

Definition hash_id (self : StreamProcessor) : string :=
  normalize_column_name self.(integration_type)
    ("_airbyte_" +:+ table_name self +:+ "_hashid") false.

Definition parent_hash_id (self : StreamProcessor) : string :=
  match self.(parent) with
  | Some p => hash_id p
  | None => ""
  end.

(** *** Unnesting *)

Definition unnesting_before_query (self : StreamProcessor) : string :=
  match self.(parent) with
  | Some p =>
      if self.(is_nested_array) then
        let quoted_name :=
          normalize_table_name self.(integration_type) p.(stream_name) in
        let quoted_field :=
          normalize_column_name self.(integration_type)
            self.(stream_name) true in
        jinja_call
          ("unnest_cte(" +:+ quoted_name +:+ ", " +:+ quoted_field +:+ ")")
      else ""
  | None => ""
  end.

Definition unnesting_after_query (self : StreamProcessor) : string :=
  let result := "" in
  match self.(parent) with
  | Some p =>
      let cross_join :=
        if self.(is_nested_array) then
          let quoted_name :=
            "'" +:+ normalize_table_name self.(integration_type)
                      p.(stream_name) +:+ "'" in
          let quoted_field :=
            normalize_column_name self.(integration_type)
              self.(stream_name) true in
          jinja_call
            ("cross_join_unnest(" +:+ quoted_name +:+ ", "
             +:+ quoted_field +:+ ")")
        else "" in
      let column_name :=
        normalize_column_name self.(integration_type)
          self.(stream_name) false in
      nl +:+ cross_join +:+ nl +:+ "where " +:+ column_name
         +:+ " is not null"
  | None => result
  end.

(** *** Columns of the four models *)

(** [self.properties.keys()] with [self.properties[field]] for each
    key: a value without [keys] raises. *)
Definition py_items (x : json) : py_result (list (string * json)) :=
  match x with
  | JDict d => Ok d
  | _ => Err AttributeError
  end.

(** The fields the comprehensions keep:
    [for field in self.properties.keys() if not is_airbyte_column(field)]. *)
Definition data_fields (d : list (string * json)) : list (string * json) :=
  List.filter (fun kv => negb (is_airbyte_column (fst kv))) d.

Fixpoint map_result {A B} (f : A -> py_result B) (l : list A)
    : py_result (list B) :=
  match l with
  | [] => Ok []
  | x :: l' => y ← f x; ys ← map_result f l'; Ok (y :: ys)
  end.

Fixpoint map_M {A B} (f : A -> M B) (l : list A) : M (list B) :=
  match l with
  | [] => mret []
  | x :: l' => y ← f x; ys ← map_M f l'; mret (y :: ys)
  end.

Definition extract_json_column (dst : DestinationType)
    (property_name json_column_name : string) (definition : json)
    : py_result select_item :=
  let json_path := py_str (JList [JStr property_name]) in
  let call (fn : string) :=
    jinja_call
      (fn +:+ "(" +:+ json_column_name +:+ ", " +:+ json_path +:+ ")") in
  let json_extract := call "json_extract" in
  has_type ← py_contains "type" definition;
  json_extract ←
    (if has_type : bool then
       ty ← py_getitem "type" definition;
       Ok (if is_array ty then call "json_extract_array"
           else if is_object ty then call "json_extract"
           else if is_simple_property ty then call "json_extract_scalar"
           else json_extract)
     else Ok json_extract);
  let column_name := normalize_column_name dst property_name false in
  Ok (As json_extract column_name).

Definition extract_json_columns (self : StreamProcessor)
    : py_result (list select_item) :=
  d ← py_items self.(properties);
  map_result
    (fun kv =>
       extract_json_column self.(integration_type) (fst kv)
         self.(json_column_name) (snd kv))
    (data_fields d).

Definition cast_property_type_as_array (self : StreamProcessor)
    (property_name : string) : string :=
  normalize_column_name self.(integration_type) property_name false.

Definition cast_property_type_as_object (self : StreamProcessor)
    (property_name : string) : string :=
  jinja_call "type_json()".

(** [cast_property_type(property_name)], with
    [definition = self.properties[property_name]] given. *)
Definition cast_property_type (self : StreamProcessor)
    (property_name : string) (definition : json) : M select_item :=
  let column_name :=
    normalize_column_name self.(integration_type) property_name false in
  let cast (sql_type : string) : M select_item :=
    mret (As ("cast(" +:+ column_name +:+ " as " +:+ sql_type +:+ ")")
             column_name) in
  has_type ← lift (py_contains "type" definition);
  if has_type : bool then
    ty ← lift (py_getitem "type" definition);
    if is_array ty then
      mret (Column (cast_property_type_as_array self property_name))
    else if is_object ty then
      cast (cast_property_type_as_object self property_name)
    else if is_integer ty then cast (jinja_call "dbt_utils.type_int()")
    else if is_number ty then cast (jinja_call "dbt_utils.type_float()")
    else if is_boolean ty then
      let jinja_column :=
        normalize_column_name self.(integration_type) property_name true in
      let cast_operation :=
        jinja_call ("cast_to_boolean(" +:+ jinja_column +:+ ")") in
      mret (As cast_operation column_name)
    else if is_string ty then cast (jinja_call "dbt_utils.type_string()")
    else
      _ ← print ("WARN: Unknown type " +:+ py_str ty +:+ " for column "
                 +:+ property_name +:+ " at " +:+ current_json_path self);
      mret (Column column_name)
  else
    _ ← print ("WARN: Unknown type for column " +:+ property_name
               +:+ " at " +:+ current_json_path self);
    mret (Column column_name).

Definition cast_property_types (self : StreamProcessor)
    : M (list select_item) :=
  d ← lift (py_items self.(properties));
  map_M (fun kv => cast_property_type self (fst kv) (snd kv))
        (data_fields d).

Definition safe_cast_to_string (dst : DestinationType)
    (property_name : string) (definition : json) : py_result string :=
  let column_name := normalize_column_name dst property_name true in
  has_type ← py_contains "type" definition;
  if has_type : bool then
    ty ← py_getitem "type" definition;
    if is_boolean ty then Ok ("boolean_to_string(" +:+ column_name +:+ ")")
    else if is_array ty then Ok ("array_to_string(" +:+ column_name +:+ ")")
    else Ok column_name
  else Ok column_name.

Definition safe_cast_to_strings (self : StreamProcessor)
    : py_result (list string) :=
  d ← py_items self.(properties);
  map_result
    (fun kv => safe_cast_to_string self.(integration_type) (fst kv) (snd kv))
    (data_fields d).

Definition list_fields (self : StreamProcessor) : py_result (list string) :=
  d ← py_items self.(properties);
  Ok (map (fun kv =>
             normalize_column_name self.(integration_type) (fst kv) false)
          (data_fields d)).

(** *** The four models

    Each [Template(...).render(...)] is written out as the text jinja
    produces: [{%- ... %}] removes the white space before the tag, an
    [if] on a string tests that it is not empty, and the last newline of
    a template is dropped. *)

Definition if_parent_hash_id (indent quote : string)
    (parent_hash_id : string) : string :=
  if truthy (JStr parent_hash_id)
  then nl +:+ indent +:+ quote +:+ parent_hash_id +:+ quote +:+ ","
  else "".

Fixpoint for_fields (indent : string) (fields : list string) : string :=
  match fields with
  | [] => ""
  | field :: rest =>
      nl +:+ indent +:+ field +:+ "," +:+ for_fields indent rest
  end.

Definition generate_json_parsing_model (self : StreamProcessor)
    (from_table : string) : py_result string :=
  fields ← extract_json_columns self;
  Ok (nl +:+ unnesting_before_query self +:+ nl
      +:+ "select"
      +:+ if_parent_hash_id "    " "" (parent_hash_id self)
      +:+ for_fields "    " (map render_item fields)
      +:+ nl +:+ "    _airbyte_emitted_at" +:+ nl
      +:+ "from " +:+ from_table +:+ nl
      +:+ unnesting_after_query self +:+ nl
      +:+ sql_table_comment self).

Definition generate_column_typing_model (self : StreamProcessor)
    (from_table : string) : M string :=
  fields ← cast_property_types self;
  mret (nl +:+ "select"
        +:+ if_parent_hash_id "    " "" (parent_hash_id self)
        +:+ for_fields "    " (map render_item fields)
        +:+ nl +:+ "    _airbyte_emitted_at" +:+ nl
        +:+ "from " +:+ from_table +:+ nl
        +:+ sql_table_comment self +:+ nl +:+ "    ").

Definition generate_id_hashing_model (self : StreamProcessor)
    (from_table : string) : py_result string :=
  fields ← safe_cast_to_strings self;
  Ok (nl +:+ "select" +:+ nl +:+ "    *," +:+ nl
      +:+ "    {{ dbt_utils.surrogate_key(["
      +:+ if_parent_hash_id "        " "'" (parent_hash_id self)
      +:+ for_fields "        " fields
      +:+ nl +:+ "    ]) }} as " +:+ hash_id self +:+ nl
      +:+ "from " +:+ from_table +:+ nl
      +:+ sql_table_comment self +:+ nl +:+ "    ").

Definition generate_final_model (self : StreamProcessor)
    (from_table : string) : py_result string :=
  fields ← list_fields self;
  Ok (nl +:+ "select"
      +:+ if_parent_hash_id "    " "" (parent_hash_id self)
      +:+ for_fields "    " fields
      +:+ nl +:+ "    _airbyte_emitted_at," +:+ nl
      +:+ "    " +:+ hash_id self +:+ nl
      +:+ "from " +:+ from_table +:+ nl
      +:+ sql_table_comment self +:+ nl +:+ "    ").

(** *** The table context *)

Definition register_new_table (table_context : gset string)
    (table_name : string) : py_result (gset string) :=
  if bool_decide (table_name ∉ table_context)
  then Ok ({[table_name]} ∪ table_context)
  else Err (KeyError ("Duplicate table " +:+ table_name)).

(** The name tried at round [i] of the loop. *)
Definition candidate (self : StreamProcessor) (suffix : string) (i : nat)
    : string :=
  if truthy (JStr suffix)
  then normalize_table_name self.(integration_type)
         (table_name self +:+ "_" +:+ str_of_nat i +:+ "_" +:+ suffix)
  else normalize_table_name self.(integration_type)
         (table_name self +:+ "_" +:+ str_of_nat i).

(** [for i in range(1, 1000): ...; if new_table_name not in
    table_context: break], over the rounds still to run. *)
Fixpoint table_name_loop (self : StreamProcessor)
    (table_context : gset string) (suffix : string) (rounds : list nat)
    (new_table_name : string) : string :=
  match rounds with
  | [] => new_table_name
  | i :: rounds' =>
      let new_table_name := candidate self suffix i in
      if bool_decide (new_table_name ∉ table_context)
      then new_table_name
      else table_name_loop self table_context suffix rounds' new_table_name
  end.

Definition generate_new_table_name (self : StreamProcessor)
    (table_context : gset string) (is_intermediate : bool)
    (suffix : string) : py_result (string * gset string) :=
  let new_table_name :=
    match is_intermediate, self.(parent) with
    | false, None => table_name self
    | _, _ =>
        table_name_loop self table_context suffix (seq 1 999)
          (table_name self)
    end in
  table_context' ← register_new_table table_context new_table_name;
  Ok (new_table_name, table_context').

(** *** Writing a model *)

Definition ref_table (table_name : string) : string :=
  "{{ ref('" +:+ table_name +:+ "') }}".

Definition output_sql_file (output_dir : list string)
    (file json_path header sql : string) : M unit :=
  fun st =>
    Ok (tt,
        {| table_context := st.(table_context);
           stdout := st.(stdout)
                     ++ ["  Generating " +:+ file +:+ " from " +:+ json_path];
           files := st.(files)
                    ++ [mkSqlFile output_dir file json_path header sql] |}).

Definition allocate (self : StreamProcessor) (is_intermediate : bool)
    (suffix : string) : M string :=
  fun st =>
    match generate_new_table_name self st.(table_context)
            is_intermediate suffix with
    | Ok (name, table_context') =>
        Ok (name, {| table_context := table_context';
                     stdout := st.(stdout);
                     files := st.(files) |})
    | Err e => Err e
    end.

Definition write_model (self : StreamProcessor) (sql : string)
    (is_intermediate : bool) (suffix : string) : M string :=
  let output :=
    if is_intermediate
    then [self.(output_directory); "airbyte_views"; self.(schema)]
    else [self.(output_directory); "airbyte_tables"; self.(schema)] in
  let schema := get_schema self is_intermediate in
  table_name ← allocate self is_intermediate suffix;
  let file := table_name +:+ ".sql" in
  let json_path := current_json_path self in
  let header := "{{ config(schema='" +:+ schema +:+ "') }}" +:+ nl in
  _ ← output_sql_file output file json_path header sql;
  mret (ref_table table_name).

(** *** Child discovery *)

(** One round of the loop of [find_children_streams]: the children the
    field adds to the list. *)
Definition field_children (self : StreamProcessor) (field : string)
    (definition : json) : py_result (list StreamProcessor) :=
  let spawn (children_properties : list (string * json))
            (is_nested_array : bool) (json_column_name : string) :=
    if truthy (JDict children_properties)
    then map (fun child =>
                initFromParent self field json_column_name (snd child)
                  is_nested_array)
             children_properties
    else [] in
  if is_airbyte_column field then Ok []
  else if is_combining_node definition then Ok []
  else
    has_type ← py_contains "type" definition;
    ty ← (if has_type : bool then py_getitem "type" definition
          else Ok JNull);
    if negb has_type || is_object ty then
      children_properties ← find_properties_object [] field definition;
      Ok (spawn children_properties false ("'" +:+ field +:+ "'"))
    else if is_array ty then
      has_items ← py_contains "items" definition;
      if has_items : bool then
        let quoted_field :=
          normalize_column_name self.(integration_type) field true in
        items ← py_getitem "items" definition;
        children_properties ← find_properties_object [] field items;
        Ok (spawn children_properties true
              ("unnested_column_value(" +:+ quoted_field +:+ ")"))
      else Ok []
    else Ok [].

Fixpoint children_loop (self : StreamProcessor) (d : list (string * json))
    (children : list StreamProcessor) : py_result (list StreamProcessor) :=
  match d with
  | [] => Ok children
  | (field, definition) :: d' =>
      new ← field_children self field definition;
      children_loop self d' (children ++ new)
  end.

Definition find_children_streams (self : StreamProcessor)
    : py_result (list StreamProcessor) :=
  d ← py_items self.(properties);
  children_loop self d [].

(** *** Processing a stream *)

(** [process(from_table, table_context)]: [None] when the stream is
    ignored, else the final table with the children found. *)
Definition process (self : StreamProcessor) (from_table : string)
    : M (option (string * list StreamProcessor)) :=
  if negb (truthy self.(properties)) then
    _ ← print ("  Ignoring substream '" +:+ self.(stream_name) +:+ "' from "
               +:+ current_json_path self
               +:+ " because properties list is empty");
    mret None
  else
    sql ← lift (generate_json_parsing_model self from_table);
    from_table ← write_model self sql true "ab1";
    sql ← generate_column_typing_model self from_table;
    from_table ← write_model self sql true "ab2";
    sql ← lift (generate_id_hashing_model self from_table);
    from_table ← write_model self sql true "ab3";
    sql ← lift (generate_final_model self from_table);
    from_table ← write_model self sql false "";
    children ← lift (find_children_streams self);
    mret (Some (from_table, children)).

(** *** Select lists of the models, for the statements

    The select list of a model is what its template walks through: the
    parent hash id when that string is not empty, the fields, and the
    closing columns. *)









(** A field whose definition is a dict, as a schema declares it. *)
Definition is_dict (x : json) : Prop :=
  match x with JDict _ => True | _ => False end.

(** A run of allocations against one table context: each request is a
    call of [generate_new_table_name]; the names come back in order. *)
Fixpoint allocate_all
    (requests : list (StreamProcessor * bool * string))
    (table_context : gset string) : py_result (list string * gset string) :=
  match requests with
  | [] => Ok ([], table_context)
  | (self, is_intermediate, suffix) :: rest =>
      '(name, table_context') ←
        generate_new_table_name self table_context is_intermediate suffix;
      '(names, table_context'') ← allocate_all rest table_context';
      Ok (name :: names, table_context'')
  end.


(** The children a discovered dict spawns: one per entry. *)
Definition spawned (self : StreamProcessor) (field : string)
    (json_column_name : string) (is_nested_array : bool)
    (children_properties : list (string * json)) : list StreamProcessor :=
  map (fun child =>
         initFromParent self field json_column_name (snd child)
           is_nested_array)
      children_properties.

(** The state after the notice of an ignored stream. *)
Definition ignored (self : StreamProcessor) (st : state) : state :=
  {| table_context := st.(table_context);
     stdout := st.(stdout)
               ++ ["  Ignoring substream '" +:+ self.(stream_name)
                   +:+ "' from " +:+ current_json_path self
                   +:+ " because properties list is empty"];
     files := st.(files) |}.

(** A computation under which the table context can only gain names. *)
Definition grows {A} (m : M A) : Prop :=
  forall st a st',
    m st = Ok (a, st') -> st.(table_context) ⊆ st'.(table_context).

(** *** Further definitions for the statements *)

(** A state in which nothing has been printed, written or registered. *)
Definition no_output : state :=
  {| table_context := ∅; stdout := []; files := [] |}.

(** The state after some more lines on standard output. *)
Definition add_stdout (st : state) (lines : list string) : state :=
  {| table_context := st.(table_context);
     stdout := st.(stdout) ++ lines;
     files := st.(files) |}.

(** A computation that only prints: its result and the lines it prints
    do not depend on the state, and it touches nothing else. *)
Definition prints_only {A} (m : M A) : Prop :=
  forall st,
    m st = match m no_output with
           | Ok (a, s) => Ok (a, add_stdout st s.(stdout))
           | Err e => Err e
           end.

(** The names from the top-level stream down to a processor. *)
Fixpoint lineage (self : StreamProcessor) : list string :=
  match self with
  | mkStreamProcessor name _ _ _ _ _ _ parent _ _ =>
      match parent with
      | Some p => lineage p ++ [name]
      | None => [name]
      end
  end.

(** The model file [write_model] hands to [output_sql_file]. *)
Definition model_file (self : StreamProcessor) (is_intermediate : bool)
    (table_name sql : string) : sql_file :=
  {| file_dir :=
       [self.(output_directory);
        if is_intermediate then "airbyte_views" else "airbyte_tables";
        self.(schema)];
     file_name := table_name +:+ ".sql";
     file_json_path := current_json_path self;
     file_header :=
       "{{ config(schema='" +:+ get_schema self is_intermediate +:+ "') }}"
       +:+ nl;
     file_sql := sql |}.

(** The line [output_sql_file] prints for a model. *)
Definition generating (self : StreamProcessor) (table_name : string)
    : string :=
  "  Generating " +:+ (table_name +:+ ".sql") +:+ " from "
  +:+ current_json_path self.

(** A model that selects from a given table: its text holds the line
    [from <from_table>]. *)
Definition reads_from (sql from_table : string) : Prop :=
  exists before after,
    sql = before +:+ nl +:+ "from " +:+ from_table +:+ nl +:+ after.

(** Every model written so far has its own file name, made of a
    registered table name. *)
Definition files_registered (st : state) : Prop :=
  NoDup (map file_name st.(files))
  /\ forall f, f ∈ st.(files) ->
       exists name,
         name ∈ st.(table_context) /\ f.(file_name) = name +:+ ".sql".

(** The accessor [find_children_streams] gives to a child of a field:
    the unnest accessor over the in-jinja column for an array, the quoted
    field otherwise. *)
Definition child_accessor (self : StreamProcessor) (field : string)
    (is_nested_array : bool) : string :=
  if is_nested_array
  then "unnested_column_value("
       +:+ normalize_column_name self.(integration_type) field true +:+ ")"
  else "'" +:+ field +:+ "'".

(** A child as [find_children_streams] builds it for a field of [self]. *)
Definition child_of (self child : StreamProcessor) (field : string)
    (definition : json) : Prop :=
  is_airbyte_column field = false
  /\ is_combining_node definition = false
  /\ exists children_properties is_nested_array,
       child = initFromParent self field
                 (child_accessor self field is_nested_array)
                 children_properties is_nested_array.




(** The tests of [cast_property_type] that lead to a cast or to the
    column of an array. *)
Definition known_type (ty : json) : bool :=
  is_array ty || is_object ty || is_integer ty || is_number ty
  || is_boolean ty || is_string ty.

(** The lines [cast_property_type] prints for a field declared by a
    dict. *)
Definition type_warnings (self : StreamProcessor) (kv : string * json)
    : list string :=
  match snd kv with
  | JDict d =>
      match PyDict.get "type" d with
      | Some ty =>
          if known_type ty then []
          else ["WARN: Unknown type " +:+ py_str ty +:+ " for column "
                +:+ fst kv +:+ " at " +:+ current_json_path self]
      | None =>
          ["WARN: Unknown type for column " +:+ fst kv +:+ " at "
           +:+ current_json_path self]
      end
  | _ => []
  end.

(** A key that begins with a given text. *)
Definition begins_with (text key : string) : Prop :=
  exists rest, key = text +:+ rest.

(** ** Properties *)

Ltac run_bind := cbn [mbind result_mbind result_bind negb orb andb].
Ltac run_M :=
  unfold mbind, M_mbind, mret, M_ret, lift, print; cbv beta iota.

(** *** Nested-property discovery *)

Lemma update_empty (result : list (string * json)) :
  PyDict.update result [] = result.
Proof. reflexivity. Qed.

Lemma update_if_child (result child : list (string * json)) :
  (if truthy (JDict child) then PyDict.update result child else result)
  = PyDict.update result child.
Proof. destruct child; reflexivity. Qed.

Lemma find_properties_object_dict (path : list string) (field : string)
    (d : list (string * json)) :
  find_properties_object path field (JDict d) =
  match PyDict.get "items" d with
  | Some v => find_properties_object path field v
  | None =>
      match PyDict.get "properties" d with
      | Some p => Ok [(join "_" (path ++ [field]), p)]
      | None =>
          if match PyDict.get "type" d with
             | Some t => is_simple_property t
             | None => false
             end
          then Ok [(join "_" (path ++ [field]), JNull)]
          else find_in_members (path ++ [field]) d []
      end
  end.
Proof.
  cbn [find_properties_object].
  match goal with
  | |- context [match ?F d with Some _ => _ | None => _ end] =>
      assert (HI : forall d0,
                 F d0 = find_properties_object path field
                          <$> PyDict.get "items" d0)
  end.
  { induction d0 as [|[k v] d0 IH]; [reflexivity|].
    cbn [PyDict.get]. destruct (String.eqb "items" k); [reflexivity|apply IH]. }
  rewrite HI. destruct (PyDict.get "items" d); [reflexivity|]. cbn.
  destruct (PyDict.get "properties" d); [reflexivity|].
  destruct (match PyDict.get "type" d with
            | Some t => is_simple_property t
            | None => false
            end); [reflexivity|].
  generalize (@nil (string * json)).
  induction d as [|[k v] d IH]; intros acc; [reflexivity|].
  cbn [find_in_members]. unfold mbind, result_mbind, result_bind.
  destruct (find_properties_object (path ++ [field]) k v);
    [apply IH|reflexivity].
Qed.

Lemma find_properties_object_list (path : list string) (field : string)
    (l : list json) :
  find_properties_object path field (JList l) =
  if existsb (str_eq "items") l then Err TypeError
  else if existsb (str_eq "properties") l then Err TypeError
  else if existsb (str_eq "type") l then Err TypeError
  else find_in_items (path ++ [field]) field l [].
Proof.
  cbn [find_properties_object].
  repeat match goal with
         | |- context [if ?b then Err TypeError else _] =>
             destruct b; [reflexivity|]
         end.
  generalize (@nil (string * json)).
  induction l as [|item l IH]; intros acc; [reflexivity|].
  cbn [find_in_items]. unfold mbind, result_mbind, result_bind.
  destruct (find_properties_object (path ++ [field]) field item);
    [apply IH|reflexivity].
Qed.

(** Both loops merge what every member returns, in order. *)
Lemma find_in_members_merge (current_path : list string)
    (d : list (string * json)) (rs : list (list (string * json)))
    (result : list (string * json)) :
  Forall2 (fun kv r =>
             find_properties_object current_path (fst kv) (snd kv) = Ok r)
          d rs ->
  find_in_members current_path d result
  = Ok (fold_left PyDict.update rs result).
Proof.
  intros H. revert result.
  induction H as [|[k v] r d rs Hr _ IH]; intros result; [reflexivity|].
  cbn [find_in_members fold_left]. cbn [fst snd] in Hr. rewrite Hr.
  unfold mbind, result_mbind, result_bind.
  rewrite update_if_child. apply IH.
Qed.

Lemma find_in_items_merge (current_path : list string) (field : string)
    (l : list json) (rs : list (list (string * json)))
    (result : list (string * json)) :
  Forall2 (fun item r =>
             find_properties_object current_path field item = Ok r) l rs ->
  find_in_items current_path field l result
  = Ok (fold_left PyDict.update rs result).
Proof.
  intros H. revert result.
  induction H as [|item r l rs Hr _ IH]; intros result; [reflexivity|].
  cbn [find_in_items fold_left]. rewrite Hr.
  unfold mbind, result_mbind, result_bind.
  rewrite update_if_child. apply IH.
Qed.

(** C7. [find_properties_object] on a definition: a definition holding
    [items] is replaced by its [items] under the same path and field;
    otherwise one holding [properties] yields the single entry from the
    underscore-joined path (field included) to that map; otherwise one
    whose [type] is a simple property yields the single entry from the
    joined path to [None]; otherwise a dict recurses into every entry,
    and a list into every element, under the path extended by the
    field, and the results are merged in order. *)
Theorem find_properties_object_cases (path : list string) (field : string)
    (d : list (string * json)) (l : list json) :
  let current := join "_" (path ++ [field]) in
  (forall items,
      PyDict.get "items" d = Some items ->
      find_properties_object path field (JDict d)
      = find_properties_object path field items)
  /\ (forall p,
         PyDict.get "items" d = None ->
         PyDict.get "properties" d = Some p ->
         find_properties_object path field (JDict d) = Ok [(current, p)])
  /\ (forall t,
         PyDict.get "items" d = None ->
         PyDict.get "properties" d = None ->
         PyDict.get "type" d = Some t -> is_simple_property t = true ->
         find_properties_object path field (JDict d)
         = Ok [(current, JNull)])
  /\ (forall rs,
         PyDict.get "items" d = None ->
         PyDict.get "properties" d = None ->
         (forall t, PyDict.get "type" d = Some t ->
                    is_simple_property t = false) ->
         Forall2 (fun kv r =>
                    find_properties_object (path ++ [field])
                      (fst kv) (snd kv) = Ok r) d rs ->
         find_properties_object path field (JDict d)
         = Ok (fold_left PyDict.update rs []))
  /\ (forall rs,
         existsb (str_eq "items") l = false ->
         existsb (str_eq "properties") l = false ->
         existsb (str_eq "type") l = false ->
         Forall2 (fun item r =>
                    find_properties_object (path ++ [field]) field item
                    = Ok r) l rs ->
         find_properties_object path field (JList l)
         = Ok (fold_left PyDict.update rs [])).
Proof.
  intros current. repeat split.
  - intros items Hi. rewrite find_properties_object_dict, Hi. reflexivity.
  - intros p Hi Hp. rewrite find_properties_object_dict, Hi, Hp. reflexivity.
  - intros t Hi Hp Ht Hs.
    rewrite find_properties_object_dict, Hi, Hp, Ht, Hs. reflexivity.
  - intros rs Hi Hp Ht Hrs.
    rewrite find_properties_object_dict, Hi, Hp.
    destruct (PyDict.get "type" d) as [t|] eqn:Et.
    + rewrite (Ht t eq_refl). apply find_in_members_merge, Hrs.
    + apply find_in_members_merge, Hrs.
  - intros rs H1 H2 H3 Hrs.
    rewrite find_properties_object_list, H1, H2, H3.
    apply find_in_items_merge, Hrs.
Qed.

(** *** The table context *)

Lemma register_new_table_absent (table_context : gset string)
    (name : string) :
  name ∉ table_context ->
  register_new_table table_context name = Ok ({[name]} ∪ table_context).
Proof.
  intros H. unfold register_new_table.
  rewrite bool_decide_eq_true_2; [reflexivity|exact H].
Qed.

Lemma register_new_table_present (table_context : gset string)
    (name : string) :
  name ∈ table_context ->
  register_new_table table_context name
  = Err (KeyError ("Duplicate table " +:+ name)).
Proof.
  intros H. unfold register_new_table.
  rewrite bool_decide_eq_false_2; [reflexivity|]. intros Hn. exact (Hn H).
Qed.

Lemma register_new_table_inv (table_context table_context' : gset string)
    (name : string) :
  register_new_table table_context name = Ok table_context' ->
  (name ∉ table_context) /\ table_context' = {[name]} ∪ table_context.
Proof.
  unfold register_new_table. case_bool_decide as H; intros E.
  - inversion E. split; [exact H|reflexivity].
  - discriminate E.
Qed.

(** The loop stops at the first round whose candidate is free. *)
Lemma table_name_loop_first (self : StreamProcessor)
    (table_context : gset string) (suffix : string) (n a k : nat)
    (start : string) :
  a <= k < a + n ->
  candidate self suffix k ∉ table_context ->
  (forall j, a <= j < k -> candidate self suffix j ∈ table_context) ->
  table_name_loop self table_context suffix (seq a n) start
  = candidate self suffix k.
Proof.
  revert a start. induction n as [|n IH]; intros a start Hk Hfree Hbusy.
  - lia.
  - cbn [seq table_name_loop]. case_bool_decide as Ha.
    + destruct (decide (a = k)) as [->|Hne]; [reflexivity|].
      exfalso. apply Ha, Hbusy. lia.
    + destruct (decide (a = k)) as [->|Hne]; [contradiction|].
      apply IH; [lia|exact Hfree|]. intros j Hj. apply Hbusy. lia.
Qed.

(** With every candidate taken the loop ends on the last one. *)
Lemma table_name_loop_exhausted (self : StreamProcessor)
    (table_context : gset string) (suffix : string) (n a : nat)
    (start : string) :
  (forall j, a <= j < a + S n -> candidate self suffix j ∈ table_context) ->
  table_name_loop self table_context suffix (seq a (S n)) start
  = candidate self suffix (a + n).
Proof.
  revert a start. induction n as [|n IH]; intros a start Hbusy.
  - cbn [seq table_name_loop]. rewrite bool_decide_eq_false_2.
    + replace (a + 0) with a by lia. reflexivity.
    + intros Hn. apply Hn, Hbusy. lia.
  - cbn [seq table_name_loop]. rewrite bool_decide_eq_false_2.
    + change (table_name_loop self table_context suffix (seq (S a) (S n))
                (candidate self suffix a)
              = candidate self suffix (a + S n)).
      rewrite IH; [f_equal; lia|]. intros j Hj. apply Hbusy. lia.
    + intros Hn. apply Hn, Hbusy. lia.
Qed.

Lemma generate_new_table_name_loop (self : StreamProcessor)
    (table_context : gset string) (is_intermediate : bool)
    (suffix : string) :
  is_intermediate = true \/ is_Some self.(parent) ->
  generate_new_table_name self table_context is_intermediate suffix
  = (let new_table_name :=
       table_name_loop self table_context suffix (seq 1 999)
         (table_name self) in
     table_context' ← register_new_table table_context new_table_name;
     Ok (new_table_name, table_context')).
Proof.
  intros H. unfold generate_new_table_name.
  destruct is_intermediate; [reflexivity|].
  destruct H as [H|[p Hp]]; [discriminate H|]. rewrite Hp. reflexivity.
Qed.

(** C1. An allocation for an intermediate model, or for the final table
    of a processor that has a parent, tries the normalized names
    [<table>_<i>_<suffix>] (or [<table>_<i>] without a suffix) for
    i = 1..999 in increasing order; it registers and returns the first
    one that is not in the table context, and raises when all 999 are
    there. *)
Theorem generate_new_table_name_intermediate (self : StreamProcessor)
    (table_context : gset string) (is_intermediate : bool)
    (suffix : string) :
  is_intermediate = true \/ is_Some self.(parent) ->
  (forall i,
      candidate self suffix i
      = normalize_table_name self.(integration_type)
          (if String.eqb suffix ""
           then table_name self +:+ "_" +:+ str_of_nat i
           else table_name self +:+ "_" +:+ str_of_nat i
                +:+ "_" +:+ suffix))
  /\ (forall k,
         1 <= k <= 999 ->
         candidate self suffix k ∉ table_context ->
         (forall j, 1 <= j < k ->
                    candidate self suffix j ∈ table_context) ->
         generate_new_table_name self table_context is_intermediate suffix
         = Ok (candidate self suffix k,
               {[candidate self suffix k]} ∪ table_context))
  /\ ((forall j, 1 <= j <= 999 ->
                 candidate self suffix j ∈ table_context) ->
      generate_new_table_name self table_context is_intermediate suffix
      = Err (KeyError ("Duplicate table " +:+ candidate self suffix 999))).
Proof.
  intros Hrole. split; [|split].
  - intros i. unfold candidate. cbn [truthy].
    destruct (String.eqb suffix ""); reflexivity.
  - intros k Hk Hfree Hbusy.
    rewrite generate_new_table_name_loop by exact Hrole. cbv zeta.
    rewrite (table_name_loop_first self table_context suffix 999 1 k)
      by (try lia; assumption).
    rewrite register_new_table_absent by exact Hfree. reflexivity.
  - intros Hbusy.
    rewrite generate_new_table_name_loop by exact Hrole. cbv zeta.
    change (seq 1 999) with (seq 1 (S 998)).
    rewrite (table_name_loop_exhausted self table_context suffix 998 1)
      by (intros j Hj; apply Hbusy; lia).
    change (1 + 998) with 999.
    rewrite register_new_table_present by (apply Hbusy; lia). reflexivity.
Qed.

Lemma generate_new_table_name_inv (self : StreamProcessor)
    (table_context table_context' : gset string) (is_intermediate : bool)
    (suffix name : string) :
  generate_new_table_name self table_context is_intermediate suffix
  = Ok (name, table_context') ->
  (name ∉ table_context) /\ table_context' = {[name]} ∪ table_context.
Proof.
  unfold generate_new_table_name. cbv zeta.
  match goal with
  | |- context [register_new_table _ ?n] => generalize n
  end.
  intros n. destruct (register_new_table table_context n) as [c|e] eqn:E;
    cbn; intros H; [|discriminate H].
  inversion H; subst. apply register_new_table_inv, E.
Qed.

Lemma allocate_all_inv
    (requests : list (StreamProcessor * bool * string))
    (table_context table_context' : gset string) (names : list string) :
  allocate_all requests table_context = Ok (names, table_context') ->
  NoDup names
  /\ (forall name, name ∈ names -> name ∉ table_context)
  /\ table_context' = list_to_set names ∪ table_context.
Proof.
  revert table_context table_context' names.
  induction requests as [|[[self is_intermediate] suffix] rest IH];
    intros ctx ctx' names H.
  - inversion H; subst. split; [constructor|split].
    + intros name Hin. inversion Hin.
    + set_solver.
  - cbn [allocate_all] in H.
    destruct (generate_new_table_name self ctx is_intermediate suffix)
      as [[name ctx1]|e] eqn:E1; cbn in H; [|discriminate H].
    destruct (allocate_all rest ctx1) as [[names' ctx2]|e] eqn:E2;
      cbn in H; [|discriminate H].
    inversion H; subst. clear H.
    apply generate_new_table_name_inv in E1 as [Hfresh ->].
    apply IH in E2 as (Hnd & Hnew & ->).
    split; [|split].
    + constructor; [|exact Hnd]. intros Hin. apply (Hnew name Hin).
      set_solver.
    + intros x Hx. apply elem_of_cons in Hx as [->|Hx]; [exact Hfresh|].
      specialize (Hnew x Hx). set_solver.
    + set_solver.
Qed.

Lemma grows_ret {A} (a : A) : grows (mret a).
Proof. intros st a' st' H. inversion H; subst. reflexivity. Qed.

Lemma grows_bind {A B} (m : M A) (f : A -> M B) :
  grows m -> (forall a, grows (f a)) -> grows (m ≫= f).
Proof.
  intros Hm Hf st b st' H. unfold mbind, M_mbind in H.
  destruct (m st) as [[a st1]|e] eqn:E; [|discriminate H].
  etransitivity; [exact (Hm _ _ _ E)|exact (Hf _ _ _ _ H)].
Qed.

Lemma grows_lift {A} (r : py_result A) : grows (lift r).
Proof.
  intros st a st' H. unfold lift in H. destruct r; [|discriminate H].
  inversion H; subst. reflexivity.
Qed.

Lemma grows_print (line : string) : grows (print line).
Proof. intros st a st' H. inversion H; subst. reflexivity. Qed.

Lemma grows_map_M {A B} (f : A -> M B) (l : list A) :
  (forall x, grows (f x)) -> grows (map_M f l).
Proof.
  intros Hf. induction l as [|x l IH]; cbn [map_M].
  - apply grows_ret.
  - apply grows_bind; [apply Hf|]. intros y.
    apply grows_bind; [exact IH|]. intros ys. apply grows_ret.
Qed.

Lemma grows_cast_property_type (self : StreamProcessor)
    (property_name : string) (definition : json) :
  grows (cast_property_type self property_name definition).
Proof.
  unfold cast_property_type.
  apply grows_bind; [apply grows_lift|]. intros [|].
  - apply grows_bind; [apply grows_lift|]. intros ty.
    repeat match goal with
           | |- grows (if ?b then _ else _) => destruct b
           | |- grows (mret _) => apply grows_ret
           | |- grows (_ ≫= _) =>
               apply grows_bind; [apply grows_print|intros _]
           end.
  - apply grows_bind; [apply grows_print|]. intros _. apply grows_ret.
Qed.

Lemma grows_write_model (self : StreamProcessor) (sql : string)
    (is_intermediate : bool) (suffix : string) :
  grows (write_model self sql is_intermediate suffix).
Proof.
  unfold write_model. apply grows_bind.
  - intros st name st' H. unfold allocate in H.
    destruct (generate_new_table_name self (table_context st)
                is_intermediate suffix) as [[n c]|e] eqn:E;
      [|discriminate H].
    inversion H; subst. cbn.
    apply generate_new_table_name_inv in E as [_ ->]. set_solver.
  - intros name. apply grows_bind; [|intros _; apply grows_ret].
    intros st a st' H. inversion H; subst. reflexivity.
Qed.

Lemma grows_process (self : StreamProcessor) (from_table : string) :
  grows (process self from_table).
Proof.
  unfold process. destruct (negb (truthy (properties self))).
  - apply grows_bind; [apply grows_print|]. intros _. apply grows_ret.
  - unfold generate_column_typing_model, cast_property_types.
    repeat first
      [ apply grows_ret
      | apply grows_lift
      | apply grows_write_model
      | apply grows_map_M; intros ?; apply grows_cast_property_type
      | apply grows_bind; [|intros ?] ].
Qed.

(** C2. The table context only grows. [register_new_table] adds a name
    that was absent, or raises on a name that is already there; an
    allocation that succeeds returns a name that was absent and adds
    just that name; after a run of successful allocations the names
    handed out are pairwise distinct, none was there before, and the
    context is the old one with these names added; [process] never takes
    a name out. *)
Theorem table_context_only_grows :
  (forall (table_context : gset string) (name : string),
      ((name ∉ table_context)
       /\ register_new_table table_context name
          = Ok ({[name]} ∪ table_context))
      \/ ((name ∈ table_context)
          /\ register_new_table table_context name
             = Err (KeyError ("Duplicate table " +:+ name))))
  /\ (forall self (table_context table_context' : gset string)
             is_intermediate suffix name,
         generate_new_table_name self table_context is_intermediate suffix
         = Ok (name, table_context') ->
         (name ∉ table_context)
         /\ table_context' = {[name]} ∪ table_context)
  /\ (forall requests (table_context table_context' : gset string) names,
         allocate_all requests table_context = Ok (names, table_context') ->
         NoDup names
         /\ (forall name, name ∈ names -> name ∉ table_context)
         /\ table_context' = list_to_set names ∪ table_context
         /\ table_context ⊆ table_context')
  /\ (forall self from_table st r st',
         process self from_table st = Ok (r, st') ->
         st.(table_context) ⊆ st'.(table_context)).
Proof.
  split; [|split; [|split]].
  - intros table_context name.
    destruct (decide (name ∈ table_context)) as [Hin|Hout].
    + right. split; [exact Hin|apply register_new_table_present, Hin].
    + left. split; [exact Hout|apply register_new_table_absent, Hout].
  - intros self table_context table_context' is_intermediate suffix name.
    apply generate_new_table_name_inv.
  - intros requests table_context table_context' names H.
    apply allocate_all_inv in H as (Hnd & Hnew & ->).
    repeat split; [exact Hnd|exact Hnew|]. apply union_subseteq_r.
  - intros self from_table st r st'. apply grows_process.
Qed.

(** *** Ignored streams *)

Lemma process_ignored (self : StreamProcessor) (from_table : string)
    (st : state) :
  truthy self.(properties) = false ->
  process self from_table st = Ok (None, ignored self st).
Proof. intros H. unfold process. rewrite H. reflexivity. Qed.

(** C3 (amended). A processor whose [properties] value is itself empty
    or missing (an empty dict, [None]) is ignored: [process] returns
    [None], prints the one notice, writes no model and leaves the table
    context as it was. *)
Theorem process_empty_properties (self : StreamProcessor)
    (from_table : string) (st : state) :
  truthy self.(properties) = false ->
  exists st',
    process self from_table st = Ok (None, st')
    /\ st'.(files) = st.(files)
    /\ st'.(table_context) = st.(table_context)
    /\ st'.(stdout)
       = st.(stdout)
         ++ ["  Ignoring substream '" +:+ self.(stream_name)
             +:+ "' from " +:+ current_json_path self
             +:+ " because properties list is empty"].
Proof.
  intros H. exists (ignored self st).
  rewrite process_ignored by exact H. repeat split.
Qed.

(** *** Child discovery *)




Lemma spawn_children (self : StreamProcessor) (field : string)
    (json_column_name : string) (is_nested_array : bool)
    (children_properties : list (string * json)) :
  (if truthy (JDict children_properties)
   then map (fun child =>
               initFromParent self field json_column_name (snd child)
                 is_nested_array)
            children_properties
   else [])
  = spawned self field json_column_name is_nested_array
      children_properties.
Proof. destruct children_properties; reflexivity. Qed.



(** [find_children_streams] collects what the rounds add, in the order
    of the fields. *)
Lemma children_loop_rounds (self : StreamProcessor)
    (d : list (string * json)) (rounds : list (list StreamProcessor))
    (children : list StreamProcessor) :
  Forall2 (fun kv new => field_children self (fst kv) (snd kv) = Ok new)
          d rounds ->
  children_loop self d children = Ok (children ++ concat rounds).
Proof.
  intros H. revert children.
  induction H as [|[field definition] new d rounds Hnew _ IH];
    intros children.
  - cbn [children_loop concat]. rewrite app_nil_r. reflexivity.
  - cbn [children_loop concat]. cbn [fst snd] in Hnew. rewrite Hnew.
    run_bind. rewrite IH, app_assoc. reflexivity.
Qed.

Lemma find_children_streams_rounds (self : StreamProcessor)
    (d : list (string * json)) (rounds : list (list StreamProcessor)) :
  self.(properties) = JDict d ->
  Forall2 (fun kv new => field_children self (fst kv) (snd kv) = Ok new)
          d rounds ->
  find_children_streams self = Ok (concat rounds).
Proof.
  intros Hp H. unfold find_children_streams. rewrite Hp. cbn [py_items].
  run_bind. apply (children_loop_rounds self d rounds []), H.
Qed.



(** C8 (amended). A field for which [is_combining_node] holds is passed
    over without a word: it adds no child, raises nothing, the loop goes
    on with the next field, and child discovery as a whole prints
    nothing, writes nothing and registers nothing. *)
Theorem combining_field_skipped (self : StreamProcessor) (field : string)
    (definition : json) :
  is_combining_node definition = true ->
  field_children self field definition = Ok []
  /\ (forall d children,
         children_loop self ((field, definition) :: d) children
         = children_loop self d children)
  /\ (forall st children st',
         lift (find_children_streams self) st = Ok (children, st') ->
         st' = st).
Proof.
  intros Hc.
  assert (Hf : field_children self field definition = Ok []).
  { unfold field_children. rewrite Hc.
    destruct (is_airbyte_column field); reflexivity. }
  split; [exact Hf|split].
  - intros d children. cbn [children_loop]. rewrite Hf. run_bind.
    rewrite app_nil_r. reflexivity.
  - intros st children st' H. unfold lift in H.
    destruct (find_children_streams self); [|discriminate H].
    inversion H. reflexivity.
Qed.

(** *** Unnesting *)

Lemma append_assoc (s1 s2 s3 : string) :
  (s1 +:+ s2) +:+ s3 = s1 +:+ s2 +:+ s3.
Proof.
  induction s1 as [|c s1 IH]; [reflexivity|].
  change (String c ((s1 +:+ s2) +:+ s3) = String c (s1 +:+ s2 +:+ s3)).
  f_equal. exact IH.
Qed.


(** C9. A processor with a parent, nested array or not, ends its
    json-parsing query with the clause [where <column> is not null] on
    its own normalized column name, just before the table comment; a
    top-level processor has neither this clause nor an unnesting prefix;
    the [unnest_cte] prefix is there exactly when the processor has a
    parent and is a nested array. *)
Theorem unnesting_tail_clause (self : StreamProcessor) :
  let dst := self.(integration_type) in
  let column_name := normalize_column_name dst self.(stream_name) false in
  (forall p,
      self.(parent) = Some p ->
      exists cross_join,
        unnesting_after_query self
        = nl +:+ cross_join +:+ nl +:+ "where " +:+ column_name
             +:+ " is not null"
        /\ (self.(is_nested_array) = false -> cross_join = ""))
  /\ (self.(parent) = None ->
      unnesting_after_query self = "" /\ unnesting_before_query self = "")
  /\ (forall p,
         self.(parent) = Some p -> self.(is_nested_array) = true ->
         unnesting_before_query self
         = jinja_call
             ("unnest_cte(" +:+ normalize_table_name dst p.(stream_name)
              +:+ ", " +:+ normalize_column_name dst self.(stream_name) true
              +:+ ")"))
  /\ (self.(parent) = None \/ self.(is_nested_array) = false ->
      unnesting_before_query self = "")
  /\ ((forall command, jinja_call command <> "") ->
      (unnesting_before_query self <> ""
       <-> is_Some self.(parent) /\ self.(is_nested_array) = true))
  /\ (forall from_table fields,
         extract_json_columns self = Ok fields ->
         exists head,
           generate_json_parsing_model self from_table
           = Ok (head +:+ "from " +:+ from_table +:+ nl
                 +:+ unnesting_after_query self +:+ nl
                 +:+ sql_table_comment self)
           /\ head
              = nl +:+ unnesting_before_query self +:+ nl +:+ "select"
                +:+ if_parent_hash_id "    " "" (parent_hash_id self)
                +:+ for_fields "    " (map render_item fields)
                +:+ nl +:+ "    _airbyte_emitted_at" +:+ nl).
Proof.
  intros dst column_name. repeat apply conj.
  - intros p Hp. unfold unnesting_after_query. rewrite Hp.
    eexists. split; [reflexivity|]. intros Hn. rewrite Hn. reflexivity.
  - intros Hp. unfold unnesting_after_query, unnesting_before_query.
    rewrite Hp. split; reflexivity.
  - intros p Hp Hn. unfold unnesting_before_query. rewrite Hp, Hn.
    reflexivity.
  - intros H. unfold unnesting_before_query.
    destruct H as [H|H]; rewrite H; [reflexivity|].
    destruct (parent self); reflexivity.
  - intros Hj. unfold unnesting_before_query.
    destruct (parent self) as [p|]; [destruct (is_nested_array self)|].
    + split; [intros _; split; [eexists|]; reflexivity|intros _; apply Hj].
    + split; [intros H; contradiction|intros [_ H]; discriminate H].
    + split; [intros H; contradiction|intros [[p H] _]; discriminate H].
  - intros from_table fields Hf. eexists. split; [|reflexivity].
    unfold generate_json_parsing_model. rewrite Hf. run_bind.
    repeat rewrite append_assoc. reflexivity.
Qed.

(** *** Columns of the models *)










Lemma append_nil_r (s : string) : s +:+ "" = s.
Proof.
  induction s as [|c s IH]; [reflexivity|].
  change (String c (s +:+ "") = String c s). f_equal. exact IH.
Qed.










(** *** The hash id *)





(** *** Running [process] *)

Lemma add_stdout_app (st : state) (l1 l2 : list string) :
  add_stdout (add_stdout st l1) l2 = add_stdout st (l1 ++ l2).
Proof. unfold add_stdout. cbn. rewrite app_assoc. reflexivity. Qed.

Lemma add_stdout_nil (st : state) : add_stdout st [] = st.
Proof. destruct st. unfold add_stdout. cbn. rewrite app_nil_r. reflexivity. Qed.

Lemma bind_inv {A B} (m : M A) (f : A -> M B) (st st' : state) (b : B) :
  (m ≫= f) st = Ok (b, st') ->
  exists a st1, m st = Ok (a, st1) /\ f a st1 = Ok (b, st').
Proof.
  unfold mbind, M_mbind. destruct (m st) as [[a st1]|e]; intros H.
  - exists a, st1. split; [reflexivity|exact H].
  - discriminate H.
Qed.

Lemma lift_inv {A} (r : py_result A) (st st' : state) (a : A) :
  lift r st = Ok (a, st') -> r = Ok a /\ st' = st.
Proof.
  unfold lift. destruct r; intros H; [|discriminate H].
  inversion H. split; reflexivity.
Qed.

Lemma prints_only_ret {A} (a : A) : prints_only (mret a).
Proof.
  intros st. unfold mret, M_ret. cbn [stdout no_output].
  rewrite add_stdout_nil. reflexivity.
Qed.

Lemma prints_only_lift {A} (r : py_result A) : prints_only (lift r).
Proof.
  intros st. unfold lift. destruct r; [|reflexivity].
  cbn [stdout no_output]. rewrite add_stdout_nil. reflexivity.
Qed.

Lemma prints_only_print (line : string) : prints_only (print line).
Proof. intros st. reflexivity. Qed.

Lemma prints_only_bind {A B} (m : M A) (f : A -> M B) :
  prints_only m -> (forall a, prints_only (f a)) -> prints_only (m ≫= f).
Proof.
  intros Hm Hf st. unfold mbind, M_mbind.
  rewrite (Hm st). destruct (m no_output) as [[a s]|e]; [|reflexivity].
  rewrite (Hf a (add_stdout st (stdout s))), (Hf a s).
  destruct (f a no_output) as [[b s']|e]; [|reflexivity].
  rewrite add_stdout_app. reflexivity.
Qed.

Lemma prints_only_map_M {A B} (f : A -> M B) (l : list A) :
  (forall x, prints_only (f x)) -> prints_only (map_M f l).
Proof.
  intros Hf. induction l as [|x l IH]; cbn [map_M].
  - apply prints_only_ret.
  - apply prints_only_bind; [apply Hf|]. intros y.
    apply prints_only_bind; [exact IH|]. intros ys. apply prints_only_ret.
Qed.

Lemma prints_only_cast_property_type (self : StreamProcessor)
    (property_name : string) (definition : json) :
  prints_only (cast_property_type self property_name definition).
Proof.
  unfold cast_property_type.
  apply prints_only_bind; [apply prints_only_lift|]. intros [|].
  - apply prints_only_bind; [apply prints_only_lift|]. intros ty.
    repeat match goal with
           | |- prints_only (if ?b then _ else _) => destruct b
           | |- prints_only (mret _) => apply prints_only_ret
           | |- prints_only (_ ≫= _) =>
               apply prints_only_bind; [apply prints_only_print|intros _]
           end.
  - apply prints_only_bind; [apply prints_only_print|]. intros _.
    apply prints_only_ret.
Qed.

Lemma prints_only_column_typing (self : StreamProcessor)
    (from_table : string) :
  prints_only (generate_column_typing_model self from_table).
Proof.
  unfold generate_column_typing_model, cast_property_types.
  apply prints_only_bind; [|intros fields; apply prints_only_ret].
  apply prints_only_bind; [apply prints_only_lift|]. intros d.
  apply prints_only_map_M. intros kv. apply prints_only_cast_property_type.
Qed.

Lemma write_model_inv (self : StreamProcessor) (sql : string)
    (is_intermediate : bool) (suffix : string) (st st' : state)
    (reference : string) :
  write_model self sql is_intermediate suffix st = Ok (reference, st') ->
  exists name table_context',
    generate_new_table_name self st.(table_context) is_intermediate suffix
    = Ok (name, table_context')
    /\ reference = ref_table name
    /\ st' = {| table_context := table_context';
                stdout := st.(stdout) ++ [generating self name];
                files := st.(files)
                         ++ [model_file self is_intermediate name sql] |}.
Proof.
  unfold write_model. intros H.
  apply bind_inv in H as (name & st1 & Ha & H).
  unfold allocate in Ha.
  destruct (generate_new_table_name self (table_context st) is_intermediate
              suffix) as [[n c]|e]; [|discriminate Ha].
  inversion Ha; subst name st1. clear Ha.
  exists n, c. split; [reflexivity|].
  unfold mbind, M_mbind, output_sql_file, mret, M_ret in H.
  cbn [table_context stdout files] in H. inversion H.
  split; [reflexivity|]. unfold model_file, generating.
  destruct is_intermediate; reflexivity.
Qed.

Lemma process_none_inv (self : StreamProcessor) (from_table : string)
    (st st' : state) :
  process self from_table st = Ok (None, st') ->
  truthy self.(properties) = false.
Proof.
  unfold process. destruct (truthy (properties self)); [|reflexivity].
  cbn [negb]. intros H.
  repeat (apply bind_inv in H as (? & ? & _ & H)).
  inversion H.
Qed.

(** What a successful run of [process] on a stream with properties is
    made of. *)
Lemma process_inv (self : StreamProcessor) (from_table : string)
    (st st' : state) (r : string * list StreamProcessor) :
  process self from_table st = Ok (Some r, st') ->
  exists sql1 n1 c1 sql2 s n2 c2 sql3 n3 c3 sql4 n4 c4 children,
    generate_json_parsing_model self from_table = Ok sql1
    /\ generate_new_table_name self st.(table_context) true "ab1"
       = Ok (n1, c1)
    /\ generate_column_typing_model self (ref_table n1) no_output
       = Ok (sql2, s)
    /\ generate_new_table_name self c1 true "ab2" = Ok (n2, c2)
    /\ generate_id_hashing_model self (ref_table n2) = Ok sql3
    /\ generate_new_table_name self c2 true "ab3" = Ok (n3, c3)
    /\ generate_final_model self (ref_table n3) = Ok sql4
    /\ generate_new_table_name self c3 false "" = Ok (n4, c4)
    /\ find_children_streams self = Ok children
    /\ r = (ref_table n4, children)
    /\ st' = {| table_context := c4;
                stdout := st.(stdout) ++ [generating self n1] ++ s.(stdout)
                          ++ [generating self n2; generating self n3;
                              generating self n4];
                files := st.(files)
                         ++ [model_file self true n1 sql1;
                             model_file self true n2 sql2;
                             model_file self true n3 sql3;
                             model_file self false n4 sql4] |}.
Proof.
  unfold process. destruct (negb (truthy (properties self))).
  { intros H. apply bind_inv in H as (? & ? & _ & H). inversion H. }
  intros H.
  apply bind_inv in H as (sql1 & st1 & H1 & H).
  apply lift_inv in H1 as [H1 ->].
  apply bind_inv in H as (r1 & st2 & W1 & H).
  apply write_model_inv in W1 as (n1 & c1 & G1 & -> & ->).
  apply bind_inv in H as (sql2 & st3 & H2 & H).
  rewrite prints_only_column_typing in H2.
  destruct (generate_column_typing_model self (ref_table n1) no_output)
    as [[sql2' s]|e] eqn:E2; [|discriminate H2].
  inversion H2; subst sql2' st3. clear H2.
  apply bind_inv in H as (r2 & st4 & W2 & H).
  apply write_model_inv in W2 as (n2 & c2 & G2 & -> & ->).
  apply bind_inv in H as (sql3 & st5 & H3 & H).
  apply lift_inv in H3 as [H3 ->].
  apply bind_inv in H as (r3 & st6 & W3 & H).
  apply write_model_inv in W3 as (n3 & c3 & G3 & -> & ->).
  apply bind_inv in H as (sql4 & st7 & H4 & H).
  apply lift_inv in H4 as [H4 ->].
  apply bind_inv in H as (r4 & st8 & W4 & H).
  apply write_model_inv in W4 as (n4 & c4 & G4 & -> & ->).
  apply bind_inv in H as (children & st9 & H5 & H).
  apply lift_inv in H5 as [H5 ->].
  inversion H; subst r st'. clear H.
  cbn [table_context stdout files add_stdout] in *.
  exists sql1, n1, c1, sql2, s, n2, c2, sql3, n3, c3, sql4, n4, c4, children.
  repeat (split; [assumption || reflexivity|]).
  f_equal; rewrite <- !app_assoc; reflexivity.
Qed.

Lemma generate_new_table_name_top_level (self : StreamProcessor)
    (table_context table_context' : gset string) (suffix name : string) :
  self.(parent) = None ->
  generate_new_table_name self table_context false suffix
  = Ok (name, table_context') ->
  name = table_name self.
Proof.
  intros Hp. unfold generate_new_table_name. rewrite Hp. cbv zeta.
  destruct (register_new_table table_context (table_name self));
    cbn; intros H; inversion H. reflexivity.
Qed.

(** The four names of a successful run, with what they do to the table
    context and the files. *)
Lemma process_allocations (self : StreamProcessor) (from_table : string)
    (st st' : state) (r : string * list StreamProcessor) :
  process self from_table st = Ok (Some r, st') ->
  exists n1 n2 n3 n4 sql1 sql2 sql3 sql4,
    NoDup [n1; n2; n3; n4]
    /\ (forall name, name ∈ [n1; n2; n3; n4] ->
                     name ∉ st.(table_context))
    /\ st'.(table_context)
       = list_to_set [n1; n2; n3; n4] ∪ st.(table_context)
    /\ st'.(files)
       = st.(files)
         ++ [model_file self true n1 sql1; model_file self true n2 sql2;
             model_file self true n3 sql3; model_file self false n4 sql4]
    /\ fst r = ref_table n4
    /\ (self.(parent) = None -> n4 = table_name self).
Proof.
  intros H.
  apply process_inv in H
    as (sql1 & n1 & c1 & sql2 & s & n2 & c2 & sql3 & n3 & c3 & sql4 & n4
        & c4 & children & _ & G1 & _ & G2 & _ & G3 & _ & G4 & _ & -> & ->).
  exists n1, n2, n3, n4, sql1, sql2, sql3, sql4.
  pose proof (fun Hp => generate_new_table_name_top_level
                          self c3 c4 "" n4 Hp G4) as Htop.
  apply generate_new_table_name_inv in G1 as [F1 ->].
  apply generate_new_table_name_inv in G2 as [F2 ->].
  apply generate_new_table_name_inv in G3 as [F3 ->].
  apply generate_new_table_name_inv in G4 as [F4 ->].
  cbn [table_context files fst].
  split; [|split; [|split; [|split; [|split]]]].
  - repeat constructor; set_solver.
  - intros name Hin. set_solver.
  - set_solver.
  - reflexivity.
  - reflexivity.
  - exact Htop.
Qed.

(** X1. A successful run of [process] on a stream with properties
    writes exactly four models, the first three in [airbyte_views] with
    the raw schema in their header and the last in [airbyte_tables] with
    the final schema, under four new, pairwise distinct table names that
    are added to the table context; it returns the reference to the
    last, which for a top-level stream bears the normalized stream
    name. *)
Theorem process_writes_four_models (self : StreamProcessor)
    (from_table : string) (st st' : state)
    (r : string * list StreamProcessor) :
  process self from_table st = Ok (Some r, st') ->
  exists n1 n2 n3 n4,
    NoDup [n1; n2; n3; n4]
    /\ (forall name, name ∈ [n1; n2; n3; n4] ->
                     name ∉ st.(table_context))
    /\ st'.(table_context)
       = list_to_set [n1; n2; n3; n4] ∪ st.(table_context)
    /\ map file_name st'.(files)
       = map file_name st.(files)
         ++ [n1 +:+ ".sql"; n2 +:+ ".sql"; n3 +:+ ".sql"; n4 +:+ ".sql"]
    /\ map file_dir st'.(files)
       = map file_dir st.(files)
         ++ [[self.(output_directory); "airbyte_views"; self.(schema)];
             [self.(output_directory); "airbyte_views"; self.(schema)];
             [self.(output_directory); "airbyte_views"; self.(schema)];
             [self.(output_directory); "airbyte_tables"; self.(schema)]]
    /\ map file_header st'.(files)
       = map file_header st.(files)
         ++ ["{{ config(schema='" +:+ self.(raw_schema) +:+ "') }}" +:+ nl;
             "{{ config(schema='" +:+ self.(raw_schema) +:+ "') }}" +:+ nl;
             "{{ config(schema='" +:+ self.(raw_schema) +:+ "') }}" +:+ nl;
             "{{ config(schema='" +:+ self.(schema) +:+ "') }}" +:+ nl]
    /\ fst r = ref_table n4
    /\ (self.(parent) = None -> n4 = table_name self).
Proof.
  intros H.
  apply process_allocations in H
    as (n1 & n2 & n3 & n4 & sql1 & sql2 & sql3 & sql4
        & Hnd & Hfresh & Hctx & Hfiles & Href & Htop).
  exists n1, n2, n3, n4. rewrite Hfiles, !map_app.
  repeat (split; [assumption || reflexivity|]). exact Htop.
Qed.

(** X2. A top-level stream whose normalized name is already in the
    table context cannot be processed: with properties to process, the
    run ends in an exception whatever else the context holds. *)
Theorem top_level_collision_is_fatal (self : StreamProcessor)
    (from_table : string) (st : state) :
  self.(parent) = None ->
  truthy self.(properties) = true ->
  table_name self ∈ st.(table_context) ->
  exists e, process self from_table st = Err e.
Proof.
  intros Hp Ht Hin.
  destruct (process self from_table st) as [[[r|] st']|e] eqn:E.
  - exfalso. apply process_allocations in E
      as (n1 & n2 & n3 & n4 & _ & _ & _ & _ & _ & Hfresh & _ & _ & _ & Htop).
    apply (Hfresh n4); [set_solver|]. rewrite (Htop Hp). exact Hin.
  - apply process_none_inv in E. rewrite E in Ht. discriminate Ht.
  - exists e. reflexivity.
Qed.

Lemma json_parsing_reads_from (self : StreamProcessor)
    (from_table sql : string) :
  generate_json_parsing_model self from_table = Ok sql ->
  reads_from sql from_table.
Proof.
  unfold generate_json_parsing_model.
  destruct (extract_json_columns self) as [fields|e]; run_bind; intros H;
    inversion H.
  exists (nl +:+ unnesting_before_query self +:+ nl +:+ "select"
          +:+ if_parent_hash_id "    " "" (parent_hash_id self)
          +:+ for_fields "    " (map render_item fields)
          +:+ nl +:+ "    _airbyte_emitted_at"),
         (unnesting_after_query self +:+ nl +:+ sql_table_comment self).
  repeat rewrite append_assoc. reflexivity.
Qed.

Lemma column_typing_reads_from (self : StreamProcessor)
    (from_table sql : string) (st st' : state) :
  generate_column_typing_model self from_table st = Ok (sql, st') ->
  reads_from sql from_table.
Proof.
  unfold generate_column_typing_model. intros H.
  apply bind_inv in H as (fields & st1 & _ & H). inversion H.
  exists (nl +:+ "select"
          +:+ if_parent_hash_id "    " "" (parent_hash_id self)
          +:+ for_fields "    " (map render_item fields)
          +:+ nl +:+ "    _airbyte_emitted_at"),
         (sql_table_comment self +:+ nl +:+ "    ").
  repeat rewrite append_assoc. reflexivity.
Qed.

Lemma id_hashing_reads_from (self : StreamProcessor)
    (from_table sql : string) :
  generate_id_hashing_model self from_table = Ok sql ->
  reads_from sql from_table.
Proof.
  unfold generate_id_hashing_model.
  destruct (safe_cast_to_strings self) as [fields|e]; run_bind; intros H;
    inversion H.
  exists (nl +:+ "select" +:+ nl +:+ "    *," +:+ nl
          +:+ "    {{ dbt_utils.surrogate_key(["
          +:+ if_parent_hash_id "        " "'" (parent_hash_id self)
          +:+ for_fields "        " fields
          +:+ nl +:+ "    ]) }} as " +:+ hash_id self),
         (sql_table_comment self +:+ nl +:+ "    ").
  repeat rewrite append_assoc. reflexivity.
Qed.

Lemma final_reads_from (self : StreamProcessor) (from_table sql : string) :
  generate_final_model self from_table = Ok sql ->
  reads_from sql from_table.
Proof.
  unfold generate_final_model.
  destruct (list_fields self) as [fields|e]; run_bind; intros H;
    inversion H.
  exists (nl +:+ "select"
          +:+ if_parent_hash_id "    " "" (parent_hash_id self)
          +:+ for_fields "    " fields
          +:+ nl +:+ "    _airbyte_emitted_at," +:+ nl
          +:+ "    " +:+ hash_id self),
         (sql_table_comment self +:+ nl +:+ "    ").
  repeat rewrite append_assoc. reflexivity.
Qed.

(** X3. The four models of a successful run form a chain: the first
    selects from the table given to [process], and each of the next
    three from the reference to the model written just before it; the
    children returned are those of [find_children_streams]. *)
Theorem process_chains_models (self : StreamProcessor)
    (from_table : string) (st st' : state)
    (r : string * list StreamProcessor) :
  process self from_table st = Ok (Some r, st') ->
  exists f1 f2 f3 f4 n1 n2 n3 n4,
    st'.(files) = st.(files) ++ [f1; f2; f3; f4]
    /\ map file_name [f1; f2; f3; f4]
       = [n1 +:+ ".sql"; n2 +:+ ".sql"; n3 +:+ ".sql"; n4 +:+ ".sql"]
    /\ reads_from f1.(file_sql) from_table
    /\ reads_from f2.(file_sql) (ref_table n1)
    /\ reads_from f3.(file_sql) (ref_table n2)
    /\ reads_from f4.(file_sql) (ref_table n3)
    /\ r = (ref_table n4, snd r)
    /\ find_children_streams self = Ok (snd r).
Proof.
  intros H.
  apply process_inv in H
    as (sql1 & n1 & c1 & sql2 & s & n2 & c2 & sql3 & n3 & c3 & sql4 & n4
        & c4 & children & H1 & _ & H2 & _ & H3 & _ & H4 & _ & H5 & -> & ->).
  exists (model_file self true n1 sql1), (model_file self true n2 sql2),
         (model_file self true n3 sql3), (model_file self false n4 sql4),
         n1, n2, n3, n4.
  cbn [files file_sql model_file snd].
  split; [reflexivity|]. split; [reflexivity|].
  split; [apply (json_parsing_reads_from self), H1|].
  split; [apply (column_typing_reads_from self _ _ _ _ H2)|].
  split; [apply (id_hashing_reads_from self), H3|].
  split; [apply (final_reads_from self), H4|].
  split; [reflexivity|exact H5].
Qed.

Lemma length_append (s1 s2 : string) :
  String.length (s1 +:+ s2) = String.length s1 + String.length s2.
Proof.
  induction s1 as [|c s1 IH]; [reflexivity|].
  change (S (String.length (s1 +:+ s2))
          = S (String.length s1 + String.length s2)).
  rewrite IH. reflexivity.
Qed.

Lemma append_inj_r (s1 s2 t : string) : s1 +:+ t = s2 +:+ t -> s1 = s2.
Proof.
  revert s2. induction s1 as [|c s1 IH]; intros [|c' s2] H.
  - reflexivity.
  - exfalso. apply (f_equal String.length) in H.
    rewrite !length_append in H. cbn [String.length] in H. lia.
  - exfalso. apply (f_equal String.length) in H.
    rewrite !length_append in H. cbn [String.length] in H. lia.
  - change (String c (s1 +:+ t) = String c' (s2 +:+ t)) in H.
    inversion H as [[Hc Ht]]. f_equal. apply IH, Ht.
Qed.

(** X4. [process] keeps the written models apart: if every file written
    so far has its own name, made of a registered table name, this still
    holds after a run, whatever stream is processed. No model is ever
    written over another. *)
Theorem process_keeps_files_registered (self : StreamProcessor)
    (from_table : string) (st st' : state)
    (r : option (string * list StreamProcessor)) :
  files_registered st ->
  process self from_table st = Ok (r, st') ->
  files_registered st'.
Proof.
  intros [Hnd Hreg] H. destruct r as [r|].
  - apply process_allocations in H
      as (n1 & n2 & n3 & n4 & sql1 & sql2 & sql3 & sql4
          & Hnames & Hfresh & Hctx & Hfiles & _ & _).
    assert (Hnew : map file_name
                     [model_file self true n1 sql1;
                      model_file self true n2 sql2;
                      model_file self true n3 sql3;
                      model_file self false n4 sql4]
                   = map (fun n => n +:+ ".sql") [n1; n2; n3; n4])
      by reflexivity.
    split.
    + rewrite Hfiles, map_app, Hnew. apply NoDup_app. split; [exact Hnd|].
      split.
      * intros x Hold Hx.
        apply list_elem_of_fmap in Hold as (f & -> & Hf).
        apply list_elem_of_fmap in Hx as (n & Hn & Hin).
        destruct (Hreg f Hf) as (m & Hm & Hfm). rewrite Hfm in Hn.
        apply append_inj_r in Hn. subst m. exact (Hfresh n Hin Hm).
      * assert (Hinj : Inj (=) (=) (fun n : string => n +:+ ".sql"))
          by (intros a b Hab; exact (append_inj_r _ _ _ Hab)).
        apply (NoDup_fmap_2 _), Hnames.
    + intros f Hf. rewrite Hfiles in Hf. rewrite Hctx.
      apply elem_of_app in Hf as [Hf|Hf].
      * destruct (Hreg f Hf) as (m & Hm & Hfm). exists m.
        split; [set_solver|exact Hfm].
      * assert (Hn : exists n, n ∈ [n1; n2; n3; n4]
                               /\ file_name f = n +:+ ".sql").
        { repeat (apply elem_of_cons in Hf as [->|Hf];
                  [eexists; split; [|reflexivity]; set_solver|]).
          inversion Hf. }
        destruct Hn as (n & Hin & Hfn). exists n.
        split; [|exact Hfn]. apply elem_of_union_l, elem_of_list_to_set, Hin.
  - assert (Ht := process_none_inv _ _ _ _ H).
    rewrite (process_ignored self from_table st Ht) in H.
    inversion H. split; [exact Hnd|exact Hreg].
Qed.

(** *** The children of a stream *)

Lemma result_bind_inv {A B} (m : py_result A) (f : A -> py_result B)
    (b : B) :
  (m ≫= f) = Ok b -> exists a, m = Ok a /\ f a = Ok b.
Proof.
  unfold mbind, result_mbind, result_bind. destruct m as [a|e]; intros H.
  - exists a. split; [reflexivity|exact H].
  - discriminate H.
Qed.

Lemma field_children_inv (self : StreamProcessor) (field : string)
    (definition : json) (new : list StreamProcessor) :
  field_children self field definition = Ok new ->
  forall child, child ∈ new -> child_of self child field definition.
Proof.
  unfold field_children.
  destruct (is_airbyte_column field) eqn:Ea.
  { intros H. inversion H. intros child Hin. inversion Hin. }
  destruct (is_combining_node definition) eqn:Ec.
  { intros H. inversion H. intros child Hin. inversion Hin. }
  intros H.
  apply result_bind_inv in H as (has_type & _ & H).
  apply result_bind_inv in H as (ty & _ & H).
  destruct (negb has_type || is_object ty).
  - apply result_bind_inv in H as (cp & _ & H). rewrite spawn_children in H.
    inversion H. intros child Hin. unfold spawned in Hin.
    apply list_elem_of_fmap in Hin as (kv & -> & _).
    split; [exact Ea|]. split; [exact Ec|].
    exists (snd kv), false. reflexivity.
  - destruct (is_array ty).
    + apply result_bind_inv in H as (has_items & _ & H).
      destruct has_items.
      * apply result_bind_inv in H as (items & _ & H).
        apply result_bind_inv in H as (cp & _ & H).
        rewrite spawn_children in H. inversion H. intros child Hin.
        unfold spawned in Hin.
        apply list_elem_of_fmap in Hin as (kv & -> & _).
        split; [exact Ea|]. split; [exact Ec|].
        exists (snd kv), true. reflexivity.
      * inversion H. intros child Hin. inversion Hin.
    + inversion H. intros child Hin. inversion Hin.
Qed.

Lemma children_loop_inv (self : StreamProcessor)
    (d : list (string * json)) (children result : list StreamProcessor) :
  children_loop self d children = Ok result ->
  forall child,
    child ∈ result ->
    child ∈ children
    \/ exists field definition,
         (field, definition) ∈ d /\ child_of self child field definition.
Proof.
  revert children. induction d as [|[field definition] d IH];
    intros children H child Hin.
  - inversion H; subst. left. exact Hin.
  - cbn [children_loop] in H.
    apply result_bind_inv in H as (new & Hnew & H).
    destruct (IH _ H child Hin) as [Hc|(f & df & Hf & Hchild)].
    + apply elem_of_app in Hc as [Hc|Hc]; [left; exact Hc|].
      right. exists field, definition.
      split; [apply elem_of_cons; left; reflexivity|].
      exact (field_children_inv _ _ _ _ Hnew child Hc).
    + right. exists f, df.
      split; [apply elem_of_cons; right; exact Hf|exact Hchild].
Qed.

Lemma find_children_streams_inv (self : StreamProcessor)
    (children : list StreamProcessor) :
  find_children_streams self = Ok children ->
  exists d,
    self.(properties) = JDict d
    /\ forall child,
         child ∈ children ->
         exists field definition,
           (field, definition) ∈ d /\ child_of self child field definition.
Proof.
  unfold find_children_streams. intros H.
  apply result_bind_inv in H as (d & Hd & H).
  destruct (properties self) as [| | | | | |d']; try discriminate Hd.
  inversion Hd; subst d'. exists d. split; [reflexivity|].
  intros child Hin.
  destruct (children_loop_inv _ _ _ _ H child Hin) as [Hnil|Hc];
    [inversion Hnil|exact Hc].
Qed.

(** X5. Every child that [find_children_streams] returns has the
    processor as its parent, is named after one of its fields that is
    neither an internal column nor a combining node, inherits its output
    directory, destination and both schemas, and has the parent's json
    path extended by its own name. *)
Theorem discovered_children (self : StreamProcessor)
    (children : list StreamProcessor) :
  find_children_streams self = Ok children ->
  exists d,
    self.(properties) = JDict d
    /\ forall child,
         child ∈ children ->
         child.(parent) = Some self
         /\ child.(output_directory) = self.(output_directory)
         /\ child.(integration_type) = self.(integration_type)
         /\ child.(raw_schema) = self.(raw_schema)
         /\ child.(schema) = self.(schema)
         /\ child.(json_path) = self.(json_path) ++ [child.(stream_name)]
         /\ exists definition,
              (child.(stream_name), definition) ∈ d
              /\ is_airbyte_column child.(stream_name) = false
              /\ is_combining_node definition = false.
Proof.
  intros H. apply find_children_streams_inv in H as (d & Hd & Hall).
  exists d. split; [exact Hd|]. intros child Hin.
  destruct (Hall child Hin)
    as (field & definition & Hf & Ha & Hc & cp & nested & ->).
  cbn. repeat (split; [reflexivity|]).
  exists definition. repeat split; assumption.
Qed.

Lemma lineage_parent (self p : StreamProcessor) :
  self.(parent) = Some p ->
  lineage self = lineage p ++ [self.(stream_name)].
Proof. destruct self. cbn. intros ->. reflexivity. Qed.

Lemma lineage_top_level (self : StreamProcessor) :
  self.(parent) = None -> lineage self = [self.(stream_name)].
Proof. destruct self. cbn. intros ->. reflexivity. Qed.

Lemma lineage_length (self : StreamProcessor) :
  1 <= List.length (lineage self).
Proof.
  destruct (parent self) as [p|] eqn:E.
  - rewrite (lineage_parent self p E), length_app. cbn. lia.
  - rewrite (lineage_top_level self E). cbn. lia.
Qed.

(** X6. The json path of a processor is the list of stream names from
    the top-level stream down to it: this holds for a processor made by
    [init], and for every child found by a processor for which it holds.
    For such a processor the table comment names the path exactly when
    the processor has a parent. *)
Theorem json_path_is_lineage :
  (forall stream_name output_directory integration_type raw_schema schema
          json_column_name properties,
      let self :=
        init stream_name output_directory integration_type raw_schema
             schema json_column_name properties in
      self.(json_path) = lineage self)
  /\ (forall self children,
         self.(json_path) = lineage self ->
         find_children_streams self = Ok children ->
         forall child, child ∈ children -> child.(json_path) = lineage child)
  /\ (forall self,
         self.(json_path) = lineage self ->
         sql_table_comment self
         = match self.(parent) with
           | Some _ =>
               "-- " +:+ table_name self +:+ " from "
               +:+ join "/" (lineage self)
           | None => "-- " +:+ table_name self
           end).
Proof.
  split; [|split].
  - reflexivity.
  - intros self children Hinv H child Hin.
    apply find_children_streams_inv in H as (d & _ & Hall).
    destruct (Hall child Hin) as (field & definition & _ & _ & _ & cp
                                  & nested & ->).
    cbn. rewrite Hinv. reflexivity.
  - intros self Hinv. unfold sql_table_comment, current_json_path.
    rewrite Hinv. destruct (parent self) as [p|] eqn:E.
    + rewrite (lineage_parent self p E), length_app.
      pose proof (lineage_length p) as Hl.
      destruct (Nat.ltb_spec 1 (List.length (lineage p)
                                + List.length [stream_name self]));
        [reflexivity|]. cbn [List.length] in *. lia.
    + rewrite (lineage_top_level self E). reflexivity.
Qed.

(** X7. The unnesting of a child names what its accessor reads. For a
    child found under an array field, the accessor is the unnest accessor
    over the in-jinja column of the field, and both the [unnest_cte]
    before the query and the [cross_join_unnest] after it are called on
    the parent's table name and that same column; for a child found
    under an object field the accessor is the quoted field and there is
    no [unnest_cte]. *)
Theorem child_unnesting_matches_accessor (self : StreamProcessor)
    (children : list StreamProcessor) :
  find_children_streams self = Ok children ->
  forall child,
    child ∈ children ->
    let dst := self.(integration_type) in
    let column := normalize_column_name dst child.(stream_name) true in
    (child.(is_nested_array) = true ->
     child.(json_column_name) = "unnested_column_value(" +:+ column +:+ ")"
     /\ unnesting_before_query child
        = jinja_call
            ("unnest_cte(" +:+ table_name self +:+ ", " +:+ column +:+ ")")
     /\ unnesting_after_query child
        = nl
          +:+ jinja_call
                ("cross_join_unnest(" +:+ ("'" +:+ table_name self +:+ "'")
                 +:+ ", " +:+ column +:+ ")")
          +:+ nl +:+ "where "
          +:+ normalize_column_name dst child.(stream_name) false
          +:+ " is not null")
    /\ (child.(is_nested_array) = false ->
        child.(json_column_name) = "'" +:+ child.(stream_name) +:+ "'"
        /\ unnesting_before_query child = ""
        /\ unnesting_after_query child
           = nl +:+ "" +:+ nl +:+ "where "
             +:+ normalize_column_name dst child.(stream_name) false
             +:+ " is not null").
Proof.
  intros H child Hin dst column.
  apply find_children_streams_inv in H as (d & _ & Hall).
  destruct (Hall child Hin) as (field & definition & _ & _ & _ & cp
                                & nested & ->).
  subst dst column. unfold unnesting_before_query, unnesting_after_query.
  cbn [initFromParent init parent is_nested_array json_column_name
       stream_name integration_type].
  destruct nested; (split; [intros Hn|intros Hn]); try discriminate Hn;
    repeat split; reflexivity.
Qed.


(** *** More on nested-property discovery *)



Lemma json_induction (P : json -> Prop) :
  P JNull ->
  (forall b, P (JBool b)) ->
  (forall z, P (JInt z)) ->
  (forall m e, P (JFloat m e)) ->
  (forall s, P (JStr s)) ->
  (forall l, Forall P l -> P (JList l)) ->
  (forall d, Forall (fun kv => P (snd kv)) d -> P (JDict d)) ->
  forall x, P x.
Proof.
  intros Hnull Hbool Hint Hfloat Hstr Hlist Hdict.
  fix IH 1. intros [| b | z | m e | s | l | d].
  - exact Hnull.
  - apply Hbool.
  - apply Hint.
  - apply Hfloat.
  - apply Hstr.
  - apply Hlist. induction l as [|y l IHl]; constructor;
      [apply IH|exact IHl].
  - apply Hdict. induction d as [|[k v] d IHd]; constructor;
      [apply IH|exact IHd].
Qed.









(** *** Type casts and their warnings *)

Lemma cast_property_type_warns (self : StreamProcessor)
    (property_name : string) (d : list (string * json)) (st : state) :
  exists item,
    cast_property_type self property_name (JDict d) st
    = Ok (item, add_stdout st (type_warnings self (property_name, JDict d)))
    /\ (type_warnings self (property_name, JDict d) <> [] ->
        item = Column (normalize_column_name self.(integration_type)
                         property_name false)).
Proof.
  unfold cast_property_type, cast_property_type_as_array, type_warnings,
    known_type.
  cbn [py_contains py_getitem fst snd]. unfold PyDict.mem.
  destruct (PyDict.get "type" d) as [ty|]; run_M.
  - destruct (is_array ty); [|destruct (is_object ty);
      [|destruct (is_integer ty); [|destruct (is_number ty);
        [|destruct (is_boolean ty); [|destruct (is_string ty)]]]]];
      run_M; cbn [orb]; eexists; (split; [|intros Hw]);
      try (rewrite add_stdout_nil; reflexivity);
      try reflexivity; try contradiction.
  - eexists. split; reflexivity.
Qed.

Lemma cast_fields_warn (self : StreamProcessor)
    (l : list (string * json)) (st : state) :
  Forall (fun kv => is_dict (snd kv)) l ->
  exists typed,
    map_M (fun kv => cast_property_type self (fst kv) (snd kv)) l st
    = Ok (typed, add_stdout st (flat_map (type_warnings self) l))
    /\ Forall2 (fun kv item =>
                  type_warnings self kv <> [] ->
                  item = Column (normalize_column_name
                                   self.(integration_type) (fst kv) false))
               l typed.
Proof.
  intros Hd. revert st. induction Hd as [|[name def] l Hdef _ IH]; intros st.
  - exists []. cbn [flat_map]. rewrite add_stdout_nil.
    split; [reflexivity|constructor].
  - destruct def as [| | | | | |dd]; try contradiction.
    destruct (cast_property_type_warns self name dd st)
      as (item & Hitem & Hcol).
    destruct (IH (add_stdout st (type_warnings self (name, JDict dd))))
      as (typed & Htyped & Hall).
    exists (item :: typed). cbn [map_M fst snd flat_map].
    unfold mbind at 1, M_mbind at 1. rewrite Hitem.
    unfold mbind at 1, M_mbind at 1. rewrite Htyped.
    rewrite add_stdout_app. split; [reflexivity|].
    constructor; assumption.
Qed.

(** X12. For a processor whose fields are declared by dicts,
    [cast_property_types] fails on no field, prints one [WARN] line for
    each field without a type or with a type none of its tests knows, in
    the order of the fields, and nothing else; it writes no file and
    registers no table. A field it warns about is selected as it is,
    without a cast. *)
Theorem cast_property_types_warnings (self : StreamProcessor)
    (d : list (string * json)) (st : state) :
  self.(properties) = JDict d ->
  Forall (fun kv => is_dict (snd kv)) (data_fields d) ->
  exists typed,
    cast_property_types self st
    = Ok (typed,
          {| table_context := st.(table_context);
             stdout := st.(stdout)
                       ++ flat_map (type_warnings self) (data_fields d);
             files := st.(files) |})
    /\ Forall2 (fun kv item =>
                  type_warnings self kv <> [] ->
                  item = Column (normalize_column_name
                                   self.(integration_type) (fst kv) false))
               (data_fields d) typed.
Proof.
  intros Hp Hd. unfold cast_property_types. rewrite Hp.
  cbn [py_items]. unfold mbind at 1, M_mbind at 1, lift.
  apply cast_fields_warn, Hd.
Qed.

(** *** Free candidates *)

Lemma first_free_candidate (self : StreamProcessor)
    (table_context : gset string) (suffix : string) (n a : nat) :
  (exists k,
      a <= k < a + n
      /\ (candidate self suffix k ∉ table_context)
      /\ forall j, a <= j < k -> candidate self suffix j ∈ table_context)
  \/ (forall j, a <= j < a + n -> candidate self suffix j ∈ table_context).
Proof.
  revert a. induction n as [|n IH]; intros a.
  - right. intros j Hj. lia.
  - destruct (decide (candidate self suffix a ∈ table_context)) as [Ha|Ha].
    + destruct (IH (S a)) as [(k & Hk & Hfree & Hbusy)|Hall].
      * left. exists k. split; [lia|]. split; [exact Hfree|].
        intros j Hj. destruct (decide (j = a)) as [->|Hne]; [exact Ha|].
        apply Hbusy. lia.
      * right. intros j Hj. destruct (decide (j = a)) as [->|Hne];
          [exact Ha|]. apply Hall. lia.
    + left. exists a. split; [lia|]. split; [exact Ha|].
      intros j Hj. lia.
Qed.

(** X13. An allocation for an intermediate model, or for the final
    table of a processor with a parent, succeeds exactly when one of its
    999 candidates is not in the table context; the name it returns is
    then a candidate, the one of the least round that is free. A name
    outside this family is never handed out. *)
Theorem allocation_succeeds_iff_free (self : StreamProcessor)
    (table_context : gset string) (is_intermediate : bool)
    (suffix : string) :
  is_intermediate = true \/ is_Some self.(parent) ->
  ((exists name table_context',
       generate_new_table_name self table_context is_intermediate suffix
       = Ok (name, table_context'))
   <-> exists k, 1 <= k <= 999
                 /\ candidate self suffix k ∉ table_context)
  /\ (forall name table_context',
         generate_new_table_name self table_context is_intermediate suffix
         = Ok (name, table_context') ->
         exists k,
           1 <= k <= 999 /\ name = candidate self suffix k
           /\ forall j, 1 <= j < k ->
                        candidate self suffix j ∈ table_context).
Proof.
  intros Hrole.
  assert (Hinv : forall name table_context',
             generate_new_table_name self table_context is_intermediate
               suffix = Ok (name, table_context') ->
             exists k,
               1 <= k <= 999 /\ name = candidate self suffix k
               /\ (candidate self suffix k ∉ table_context)
               /\ forall j, 1 <= j < k ->
                            candidate self suffix j ∈ table_context).
  { intros name ctx' H.
    destruct (first_free_candidate self table_context suffix 999 1)
      as [(k & Hk & Hfree & Hbusy)|Hall].
    - exists k. split; [lia|].
      rewrite generate_new_table_name_loop in H by exact Hrole.
      cbv zeta in H.
      rewrite (table_name_loop_first self table_context suffix 999 1 k)
        in H by assumption.
      rewrite register_new_table_absent in H by exact Hfree.
      inversion H. repeat split; assumption.
    - exfalso.
      rewrite generate_new_table_name_loop in H by exact Hrole.
      cbv zeta in H. change (seq 1 999) with (seq 1 (S 998)) in H.
      rewrite (table_name_loop_exhausted self table_context suffix 998 1)
        in H by (intros j Hj; apply Hall; lia).
      rewrite register_new_table_present in H by (apply Hall; lia).
      discriminate H. }
  split; [split|].
  - intros (name & ctx' & H).
    destruct (Hinv name ctx' H) as (k & Hk & -> & Hfree & _).
    exists k. split; assumption.
  - intros (k0 & Hk0 & Hfree0).
    destruct (first_free_candidate self table_context suffix 999 1)
      as [(k & Hk & Hfree & Hbusy)|Hall].
    + do 2 eexists.
      rewrite generate_new_table_name_loop by exact Hrole. cbv zeta.
      rewrite (table_name_loop_first self table_context suffix 999 1 k)
        by assumption.
      rewrite register_new_table_absent by exact Hfree. reflexivity.
    + exfalso. apply Hfree0, Hall. lia.
  - intros name ctx' H.
    destruct (Hinv name ctx' H) as (k & Hk & Hn & _ & Hbusy).
    exists k. split; [exact Hk|split; [exact Hn|exact Hbusy]].
Qed.





(** X14. A reference names one table: two tables with the same
    reference have the same name. *)
Theorem ref_table_injective (name1 name2 : string) :
  ref_table name1 = ref_table name2 -> name1 = name2.
Proof.
  unfold ref_table. intros H.
  apply (String.app_inj "{{ ref('") in H.
  exact (append_inj_r _ _ _ H).
Qed.

(** *** Keys of the discovered dict *)

Lemma join_snoc (sep : string) (l : list string) (x y : string) :
  join sep ((l ++ [x]) ++ [y]) = join sep (l ++ [x]) +:+ sep +:+ y.
Proof.
  induction l as [|z l IH]; [reflexivity|].
  cbn [app]. destruct (l ++ [x]) as [|w l'] eqn:E.
  { destruct l; discriminate E. }
  cbn [app join] in *. destruct (l' ++ [y]) eqn:E2.
  { destruct l'; discriminate E2. }
  rewrite IH. destruct l'; repeat rewrite append_assoc; reflexivity.
Qed.

Lemma set_elem (k : string) (v : json) (d : list (string * json))
    (kv : string * json) :
  kv ∈ PyDict.set k v d -> kv = (k, v) \/ kv ∈ d.
Proof.
  induction d as [|[k' v'] d IH]; cbn [PyDict.set]; intros H.
  - apply list_elem_of_singleton in H. left. exact H.
  - destruct (String.eqb k k').
    + apply elem_of_cons in H as [H|H]; [left; exact H|].
      right. apply elem_of_cons. right. exact H.
    + apply elem_of_cons in H as [H|H].
      * right. apply elem_of_cons. left. exact H.
      * destruct (IH H) as [Hk|Hd]; [left; exact Hk|].
        right. apply elem_of_cons. right. exact Hd.
Qed.

Lemma update_elem (result child : list (string * json))
    (kv : string * json) :
  kv ∈ PyDict.update result child -> kv ∈ result \/ kv ∈ child.
Proof.
  unfold PyDict.update. revert result.
  induction child as [|[k v] child IH]; intros result; cbn [fold_left].
  - intros H. left. exact H.
  - intros H. destruct (IH _ H) as [Hs|Hc].
    + cbn [fst snd] in Hs. apply set_elem in Hs as [->|Hr].
      * right. apply elem_of_cons. left. reflexivity.
      * left. exact Hr.
    + right. apply elem_of_cons. right. exact Hc.
Qed.

Lemma begins_with_longer (text more key : string) :
  begins_with (text +:+ more) key -> begins_with text key.
Proof.
  intros [rest ->]. exists (more +:+ rest). apply append_assoc.
Qed.

Lemma find_in_members_keys (current_path : list string)
    (d : list (string * json)) (result r : list (string * json))
    (P : string -> Prop) :
  Forall (fun kv => forall r,
            find_properties_object current_path (fst kv) (snd kv) = Ok r ->
            forall k v, (k, v) ∈ r -> P k) d ->
  (forall k v, (k, v) ∈ result -> P k) ->
  find_in_members current_path d result = Ok r ->
  forall k v, (k, v) ∈ r -> P k.
Proof.
  intros H. revert result.
  induction H as [|[key x] d Hx _ IH]; intros result Hres;
    cbn [find_in_members].
  - intros E. inversion E; subst. exact Hres.
  - intros E. apply result_bind_inv in E as (child & Hc & E).
    rewrite update_if_child in E. refine (IH _ _ E).
    intros k v Hin. apply update_elem in Hin as [Hin|Hin].
    + exact (Hres k v Hin).
    + exact (Hx child Hc k v Hin).
Qed.

Lemma find_in_items_keys (current_path : list string) (field : string)
    (l : list json) (result r : list (string * json))
    (P : string -> Prop) :
  Forall (fun x => forall r,
            find_properties_object current_path field x = Ok r ->
            forall k v, (k, v) ∈ r -> P k) l ->
  (forall k v, (k, v) ∈ result -> P k) ->
  find_in_items current_path field l result = Ok r ->
  forall k v, (k, v) ∈ r -> P k.
Proof.
  intros H. revert result.
  induction H as [|x l Hx _ IH]; intros result Hres; cbn [find_in_items].
  - intros E. inversion E; subst. exact Hres.
  - intros E. apply result_bind_inv in E as (child & Hc & E).
    rewrite update_if_child in E. refine (IH _ _ E).
    intros k v Hin. apply update_elem in Hin as [Hin|Hin].
    + exact (Hres k v Hin).
    + exact (Hx child Hc k v Hin).
Qed.

(** X15. Every key of the dict [find_properties_object] returns begins
    with the underscore-joined path of the call, field included: nested
    entries only ever extend it. *)
Theorem discovered_keys_begin_with_path (x : json) :
  forall path field r,
    find_properties_object path field x = Ok r ->
    forall k v,
      (k, v) ∈ r -> begins_with (join "_" (path ++ [field])) k.
Proof.
  induction x as [| b | z | m e0 | s | l IHl | d IHd] using json_induction;
    intros path field r;
    try (cbn; intros H; inversion H; subst; intros k v Hin;
         inversion Hin; fail).
  - rewrite find_properties_object_list.
    repeat match goal with
           | |- context [if ?b then Err TypeError else _] =>
               destruct b; [discriminate|]
           end.
    apply find_in_items_keys.
    + rewrite Forall_forall in IHl |- *. intros y Hy r' Hr k v Hin.
      apply (begins_with_longer _ ("_" +:+ field)).
      rewrite <- join_snoc. exact (IHl y Hy _ _ _ Hr k v Hin).
    + intros k v Hin. inversion Hin.
  - rewrite find_properties_object_dict.
    destruct (PyDict.get "items" d) as [items|] eqn:Ei.
    + clear -IHd Ei. induction d as [|[k0 v0] d IH]; [discriminate Ei|].
      inversion IHd as [|? ? Hv Hd]; subst. cbn [PyDict.get] in Ei.
      destruct (String.eqb "items" k0).
      * inversion Ei; subst. apply Hv.
      * apply IH; assumption.
    + destruct (PyDict.get "properties" d) as [p|].
      { intros H. inversion H; subst. intros k v Hin.
        apply list_elem_of_singleton in Hin. inversion Hin; subst.
        exists "". symmetry. apply append_nil_r. }
      destruct (match PyDict.get "type" d with
                | Some t => is_simple_property t
                | None => false
                end).
      { intros H. inversion H; subst. intros k v Hin.
        apply list_elem_of_singleton in Hin. inversion Hin; subst.
        exists "". symmetry. apply append_nil_r. }
      apply find_in_members_keys.
      * rewrite Forall_forall in IHd |- *. intros kv Hkv r' Hr k v Hin.
        apply (begins_with_longer _ ("_" +:+ fst kv)).
        rewrite <- join_snoc. exact (IHd kv Hkv _ _ _ Hr k v Hin).
      * intros k v Hin. inversion Hin.
Qed.

(** X16. A stream is ignored only for want of properties: when
    [process] returns, it returns [None] exactly when the [properties]
    value is empty or missing, so a stream with properties either gets
    its four models or ends in an exception. *)
Theorem ignored_iff_no_properties (self : StreamProcessor)
    (from_table : string) (st st' : state)
    (r : option (string * list StreamProcessor)) :
  process self from_table st = Ok (r, st') ->
  (r = None <-> truthy self.(properties) = false).
Proof.
  intros H. split.
  - intros ->. exact (process_none_inv _ _ _ _ H).
  - intros Ht. rewrite (process_ignored self from_table st Ht) in H.
    inversion H. reflexivity.
Qed.

End Processor.

(** ** The processor on concrete streams *)

Abbreviation sample_find_properties_object :=
  (find_properties_object Sample.is_simple_property).

Abbreviation sample_generate_new_table_name :=
  (generate_new_table_name Sample.normalize_table_name).

Abbreviation sample_process :=
  (process Sample.is_airbyte_column Sample.is_combining_node
     Sample.is_array Sample.is_boolean Sample.is_integer Sample.is_number
     Sample.is_object Sample.is_simple_property Sample.is_string
     Sample.jinja_call Sample.normalize_table_name
     Sample.normalize_column_name Sample.py_str).

Abbreviation sample_field_children :=
  (field_children Sample.is_airbyte_column Sample.is_combining_node
     Sample.is_array Sample.is_object Sample.is_simple_property
     Sample.normalize_column_name).

Lemma find_properties_object_cases_witness :
  sample_find_properties_object [] "addresses" (JDict Sample.addresses)
  = sample_find_properties_object [] "addresses"
      (JDict [("type", JStr "object"); ("properties", JDict Sample.address)])
  /\ sample_find_properties_object ["users"] "address"
       (JDict [("properties", JDict Sample.address)])
     = Ok [("users_address", JDict Sample.address)]
  /\ sample_find_properties_object ["users"] "name" Sample.string_type
     = Ok [("users_name", JNull)]
  /\ sample_find_properties_object [] "a"
       (JDict [("x", Sample.string_type);
               ("y", JDict [("properties", JDict [])])])
     = Ok [("a_x", JNull); ("a_y", JDict [])]
  /\ sample_find_properties_object [] "a"
       (JList [Sample.string_type; JStr "b"])
     = Ok [("a_a", JNull)].
Proof.
  repeat apply conj.
  - apply (proj1 (find_properties_object_cases Sample.is_simple_property
                    [] "addresses" Sample.addresses [])).
    reflexivity.
  - apply (proj1 (proj2 (find_properties_object_cases
                           Sample.is_simple_property ["users"] "address"
                           [("properties", JDict Sample.address)] [])));
      reflexivity.
  - apply (proj1 (proj2 (proj2 (find_properties_object_cases
                                  Sample.is_simple_property ["users"] "name"
                                  [("type", JStr "string")] [])))
             (JStr "string")); reflexivity.
  - apply (proj1 (proj2 (proj2 (proj2 (find_properties_object_cases
             Sample.is_simple_property [] "a"
             [("x", Sample.string_type);
              ("y", JDict [("properties", JDict [])])] []))))
             [[("a_x", JNull)]; [("a_y", JDict [])]]).
    + reflexivity.
    + reflexivity.
    + intros t H. discriminate H.
    + repeat constructor.
  - apply (proj2 (proj2 (proj2 (proj2 (find_properties_object_cases
             Sample.is_simple_property [] "a" []
             [Sample.string_type; JStr "b"]))))
             [[("a_a", JNull)]; []]).
    + reflexivity.
    + reflexivity.
    + reflexivity.
    + repeat constructor.
Defined.

Lemma generate_new_table_name_intermediate_witness :
  sample_generate_new_table_name (Sample.users (JDict Sample.catalog))
    {["users_1_ab1"]} true "ab1"
  = Ok ("users_2_ab1", {["users_2_ab1"]} ∪ {["users_1_ab1"]})
  /\ generate_new_table_name Sample.truncating_table_name
       (Sample.users (JDict Sample.catalog)) {["t"]} true "ab1"
     = Err (KeyError "Duplicate table t").
Proof.
  split.
  - apply (proj1 (proj2 (generate_new_table_name_intermediate
                           Sample.normalize_table_name
                           (Sample.users (JDict Sample.catalog))
                           {["users_1_ab1"]} true "ab1"
                           (or_introl eq_refl))) 2).
    + lia.
    + apply (bool_decide_unpack _). vm_compute. exact I.
    + intros j Hj. assert (j = 1) as -> by lia.
      apply (bool_decide_unpack _). vm_compute. exact I.
  - apply (proj2 (proj2 (generate_new_table_name_intermediate
                           Sample.truncating_table_name
                           (Sample.users (JDict Sample.catalog))
                           {["t"]} true "ab1" (or_introl eq_refl)))).
    intros j _. apply elem_of_singleton. reflexivity.
Defined.

Lemma table_context_only_grows_witness :
  NoDup ["users_1_ab1"; "users_2_ab1"; "users"]
  /\ (∅ : gset string)
     ⊆ {["users"]} ∪ ({["users_2_ab1"]} ∪ ({["users_1_ab1"]} ∪ ∅)).
Proof.
  pose proof
    (proj1 (proj2 (proj2
       (table_context_only_grows Sample.is_airbyte_column
          Sample.is_combining_node Sample.is_array Sample.is_boolean
          Sample.is_integer Sample.is_number Sample.is_object
          Sample.is_simple_property Sample.is_string Sample.jinja_call
          Sample.normalize_table_name Sample.normalize_column_name
          Sample.py_str)))
       [(Sample.users (JDict Sample.catalog), true, "ab1");
        (Sample.users (JDict Sample.catalog), true, "ab1");
        (Sample.users (JDict Sample.catalog), false, "")]
       ∅ ({["users"]} ∪ ({["users_2_ab1"]} ∪ ({["users_1_ab1"]} ∪ ∅)))
       ["users_1_ab1"; "users_2_ab1"; "users"]) as H.
  destruct H as (Hnd & _ & _ & Hsub).
  - vm_compute. reflexivity.
  - split; [exact Hnd|exact Hsub].
Defined.

Lemma process_empty_properties_witness :
  exists st',
    sample_process (Sample.users (JDict [])) "raw_users" Sample.empty_state
    = Ok (None, st')
    /\ st'.(files) = []
    /\ st'.(table_context) = ∅
    /\ st'.(stdout)
       = ["  Ignoring substream 'users' from users because properties list is empty"].
Proof.
  apply (process_empty_properties Sample.is_airbyte_column
           Sample.is_combining_node Sample.is_array Sample.is_boolean
           Sample.is_integer Sample.is_number Sample.is_object
           Sample.is_simple_property Sample.is_string Sample.jinja_call
           Sample.normalize_table_name Sample.normalize_column_name
           Sample.py_str (Sample.users (JDict [])) "raw_users"
           Sample.empty_state).
  reflexivity.
Defined.

(** A stream that holds nothing but a metadata column has no
    non-internal property, and still gets its four models and four table
    names. *)
Lemma process_metadata_only_counterexample :
  data_fields Sample.is_airbyte_column Sample.only_metadata = []
  /\ exists st',
      sample_process (Sample.users (JDict Sample.only_metadata)) "raw_users"
        Sample.empty_state
      = Ok (Some ("{{ ref('users') }}", []), st')
      /\ map file_name st'.(files)
         = ["users_1_ab1.sql"; "users_1_ab2.sql"; "users_1_ab3.sql";
            "users.sql"]
      /\ st'.(table_context)
         = list_to_set ["users_1_ab1"; "users_1_ab2"; "users_1_ab3"; "users"]
      /\ st'.(stdout)
         = ["  Generating users_1_ab1.sql from users";
            "  Generating users_1_ab2.sql from users";
            "  Generating users_1_ab3.sql from users";
            "  Generating users.sql from users"].
Proof.
  split; [reflexivity|]. eexists. split; [vm_compute; reflexivity|].
  repeat split; vm_compute; reflexivity.
Qed.

Lemma combining_field_skipped_witness :
  sample_field_children (Sample.users (JDict [("v", Sample.one_of)])) "v"
    Sample.one_of
  = Ok [].
Proof.
  apply (combining_field_skipped Sample.is_airbyte_column
           Sample.is_combining_node Sample.is_array Sample.is_object
           Sample.is_simple_property Sample.normalize_column_name
           (Sample.users (JDict [("v", Sample.one_of)])) "v" Sample.one_of).
  reflexivity.
Defined.

(** A stream with one combining field: the whole run prints the four
    lines of the models it writes, and no notice about the field. *)
Lemma combining_field_notice_counterexample :
  Sample.is_combining_node Sample.one_of = true
  /\ exists st',
      sample_process (Sample.users (JDict [("v", Sample.one_of)]))
        "raw_users" Sample.empty_state
      = Ok (Some ("{{ ref('users') }}", []), st')
      /\ st'.(stdout)
         = ["  Generating users_1_ab1.sql from users";
            "  Generating users_1_ab2.sql from users";
            "  Generating users_1_ab3.sql from users";
            "  Generating users.sql from users"].
Proof.
  split; [reflexivity|]. eexists. split; vm_compute; reflexivity.
Qed.



Lemma unnesting_tail_clause_witness :
  (exists cross_join,
      unnesting_after_query Sample.jinja_call Sample.normalize_table_name
        Sample.normalize_column_name Sample.addresses_child
      = nl +:+ cross_join +:+ nl +:+ "where addresses is not null"
      /\ (Sample.addresses_child.(is_nested_array) = false ->
          cross_join = ""))
  /\ (unnesting_before_query Sample.jinja_call Sample.normalize_table_name
        Sample.normalize_column_name Sample.addresses_child <> ""
      <-> is_Some Sample.addresses_child.(parent)
          /\ Sample.addresses_child.(is_nested_array) = true).
Proof.
  pose proof
    (unnesting_tail_clause Sample.is_airbyte_column Sample.is_array
       Sample.is_object Sample.is_simple_property Sample.jinja_call
       Sample.normalize_table_name Sample.normalize_column_name
       Sample.py_str Sample.addresses_child) as H.
  cbv zeta in H. destruct H as (Hafter & _ & _ & _ & Hiff & _). split.
  - apply (Hafter (Sample.users (JDict Sample.catalog))). reflexivity.
  - apply Hiff. intros command. discriminate.
Defined.



(** The [users] stream end to end: four models, the final table under the
    name of the stream, and one child for the addresses. *)
Example process_users :
  exists st',
    sample_process (Sample.users (JDict Sample.catalog)) "raw_users"
      Sample.empty_state
    = Ok (Some ("{{ ref('users') }}", [Sample.addresses_child]), st')
    /\ map file_name st'.(files)
       = ["users_1_ab1.sql"; "users_1_ab2.sql"; "users_1_ab3.sql";
          "users.sql"]
    /\ map file_dir st'.(files)
       = [["out"; "airbyte_views"; "public"];
          ["out"; "airbyte_views"; "public"];
          ["out"; "airbyte_views"; "public"];
          ["out"; "airbyte_tables"; "public"]].
Proof.
  eexists. split; [vm_compute; reflexivity|].
  split; vm_compute; reflexivity.
Qed.

(** ** Further properties on concrete streams *)

Abbreviation sample_find_children_streams :=
  (find_children_streams Sample.is_airbyte_column Sample.is_combining_node
     Sample.is_array Sample.is_object Sample.is_simple_property
     Sample.normalize_column_name).

Abbreviation sample_hash_id :=
  (hash_id Sample.normalize_table_name Sample.normalize_column_name).

Lemma process_writes_four_models_witness :
  exists st' n1 n2 n3 n4,
    sample_process (Sample.users (JDict Sample.catalog)) "raw_users"
      Sample.empty_state
    = Ok (Some ("{{ ref('users') }}", [Sample.addresses_child]), st')
    /\ NoDup [n1; n2; n3; n4]
    /\ map file_name st'.(files)
       = map file_name Sample.empty_state.(files)
         ++ [n1 +:+ ".sql"; n2 +:+ ".sql"; n3 +:+ ".sql"; n4 +:+ ".sql"]
    /\ n4 = "users".
Proof.
  eassert (E : sample_process (Sample.users (JDict Sample.catalog))
                 "raw_users" Sample.empty_state
               = Ok (Some ("{{ ref('users') }}", [Sample.addresses_child]),
                     _))
    by (vm_compute; reflexivity).
  destruct (process_writes_four_models _ _ _ _ _ _ _ _ _ _ _ _ _ _ _ _ _ _ E)
    as (n1 & n2 & n3 & n4 & Hnd & _ & _ & Hnames & _ & _ & _ & Htop).
  eexists _, n1, n2, n3, n4.
  split; [exact E|]. split; [exact Hnd|]. split; [exact Hnames|].
  apply Htop. reflexivity.
Defined.

Lemma top_level_collision_is_fatal_witness :
  exists e,
    sample_process (Sample.users (JDict Sample.catalog)) "raw_users"
      {| table_context := {["users"]}; stdout := []; files := [] |}
    = Err e.
Proof.
  apply top_level_collision_is_fatal.
  - reflexivity.
  - reflexivity.
  - apply (bool_decide_unpack _). vm_compute. exact I.
Defined.

Lemma process_chains_models_witness :
  exists st' f1 f2 f3 f4,
    sample_process (Sample.users (JDict Sample.catalog)) "raw_users"
      Sample.empty_state
    = Ok (Some ("{{ ref('users') }}", [Sample.addresses_child]), st')
    /\ st'.(files) = [f1; f2; f3; f4]
    /\ reads_from f1.(file_sql) "raw_users"
    /\ reads_from f2.(file_sql) "{{ ref('users_1_ab1') }}"
    /\ reads_from f3.(file_sql) "{{ ref('users_1_ab2') }}"
    /\ reads_from f4.(file_sql) "{{ ref('users_1_ab3') }}".
Proof.
  eassert (E : sample_process (Sample.users (JDict Sample.catalog))
                 "raw_users" Sample.empty_state
               = Ok (Some ("{{ ref('users') }}", [Sample.addresses_child]),
                     _))
    by (vm_compute; reflexivity).
  destruct (process_chains_models _ _ _ _ _ _ _ _ _ _ _ _ _ _ _ _ _ _ E)
    as (f1 & f2 & f3 & f4 & n1 & n2 & n3 & n4 & Hfiles & Hnames & H1 & H2
        & H3 & H4 & _ & _).
  cbn [files app] in Hfiles. inversion Hfiles; subst f1 f2 f3 f4.
  cbn [map file_name] in Hnames. inversion Hnames as [[E1 E2 E3 E4]].
  apply (append_inj_r "users_1_ab1" n1 ".sql") in E1.
  apply (append_inj_r "users_1_ab2" n2 ".sql") in E2.
  apply (append_inj_r "users_1_ab3" n3 ".sql") in E3. subst n1 n2 n3.
  eexists _, _, _, _, _.
  split; [exact E|]. split; [reflexivity|].
  split; [exact H1|]. split; [exact H2|]. split; [exact H3|exact H4].
Defined.

Lemma process_keeps_files_registered_witness :
  exists st',
    sample_process (Sample.users (JDict Sample.catalog)) "raw_users"
      Sample.empty_state
    = Ok (Some ("{{ ref('users') }}", [Sample.addresses_child]), st')
    /\ files_registered st'.
Proof.
  eassert (E : sample_process (Sample.users (JDict Sample.catalog))
                 "raw_users" Sample.empty_state
               = Ok (Some ("{{ ref('users') }}", [Sample.addresses_child]),
                     _))
    by (vm_compute; reflexivity).
  assert (H0 : files_registered Sample.empty_state).
  { split; [constructor|]. intros f Hf. inversion Hf. }
  eexists. split; [exact E|].
  exact (process_keeps_files_registered _ _ _ _ _ _ _ _ _ _ _ _ _ _ _ _ _ _
           H0 E).
Defined.

Lemma discovered_children_witness :
  Sample.addresses_child.(parent)
  = Some (Sample.users (JDict Sample.catalog))
  /\ Sample.addresses_child.(schema) = "public"
  /\ Sample.addresses_child.(json_path) = ["users"; "addresses"].
Proof.
  assert (E : sample_find_children_streams
                (Sample.users (JDict Sample.catalog))
              = Ok [Sample.addresses_child]) by reflexivity.
  destruct (discovered_children _ _ _ _ _ _ _ _ E) as (d & _ & H).
  destruct (H Sample.addresses_child)
    as (Hp & _ & _ & _ & Hs & Hj & _);
    [apply list_elem_of_singleton; reflexivity|].
  split; [exact Hp|]. split; [exact Hs|exact Hj].
Defined.

Lemma json_path_is_lineage_witness :
  sql_table_comment Sample.normalize_table_name Sample.addresses_child
  = "-- addresses from users/addresses".
Proof.
  apply (proj2 (proj2 (json_path_is_lineage Sample.is_airbyte_column
                         Sample.is_combining_node Sample.is_array
                         Sample.is_object Sample.is_simple_property
                         Sample.normalize_table_name
                         Sample.normalize_column_name))
           Sample.addresses_child).
  reflexivity.
Defined.

Lemma child_unnesting_matches_accessor_witness :
  Sample.addresses_child.(json_column_name)
  = "unnested_column_value('addresses')"
  /\ unnesting_before_query Sample.jinja_call Sample.normalize_table_name
       Sample.normalize_column_name Sample.addresses_child
     = "{{ unnest_cte(users, 'addresses') }}"
  /\ unnesting_after_query Sample.jinja_call Sample.normalize_table_name
       Sample.normalize_column_name Sample.addresses_child
     = nl +:+ "{{ cross_join_unnest('users', 'addresses') }}" +:+ nl
       +:+ "where addresses is not null".
Proof.
  assert (E : sample_find_children_streams
                (Sample.users (JDict Sample.catalog))
              = Ok [Sample.addresses_child]) by reflexivity.
  pose proof (child_unnesting_matches_accessor Sample.is_airbyte_column
                Sample.is_combining_node Sample.is_array Sample.is_object
                Sample.is_simple_property Sample.jinja_call
                Sample.normalize_table_name Sample.normalize_column_name
                _ _ E Sample.addresses_child) as H.
  cbv zeta in H. apply H; [|reflexivity].
  apply list_elem_of_singleton. reflexivity.
Defined.





Lemma cast_property_types_warnings_witness :
  exists typed,
    cast_property_types Sample.is_airbyte_column Sample.is_array
      Sample.is_boolean Sample.is_integer Sample.is_number Sample.is_object
      Sample.is_string Sample.jinja_call Sample.normalize_column_name
      Sample.py_str (Sample.users (JDict Sample.loose)) Sample.empty_state
    = Ok (typed,
          {| table_context := ∅;
             stdout := ["WARN: Unknown type for column blob at users";
                        "WARN: Unknown type date for column day at users"];
             files := [] |}).
Proof.
  destruct (cast_property_types_warnings Sample.is_airbyte_column
              Sample.is_array Sample.is_boolean Sample.is_integer
              Sample.is_number Sample.is_object Sample.is_string
              Sample.jinja_call Sample.normalize_column_name Sample.py_str
              (Sample.users (JDict Sample.loose)) Sample.loose
              Sample.empty_state)
    as (typed & H & _).
  - reflexivity.
  - repeat constructor.
  - exists typed. exact H.
Defined.

Lemma allocation_succeeds_iff_free_witness :
  exists name table_context',
    sample_generate_new_table_name (Sample.users (JDict Sample.catalog))
      {["users_1_ab1"]} true "ab1"
    = Ok (name, table_context').
Proof.
  apply (proj1 (allocation_succeeds_iff_free Sample.normalize_table_name
                  (Sample.users (JDict Sample.catalog)) {["users_1_ab1"]}
                  true "ab1" (or_introl eq_refl))).
  exists 2. split; [lia|].
  apply (bool_decide_unpack _). vm_compute. exact I.
Defined.

Lemma ref_table_injective_witness : "users" = "users".
Proof. apply ref_table_injective. reflexivity. Defined.

Lemma discovered_keys_begin_with_path_witness :
  begins_with "users_a" "users_a_x".
Proof.
  apply (discovered_keys_begin_with_path Sample.is_simple_property
           (JDict [("x", Sample.string_type);
                   ("y", JDict [("properties", JDict [])])])
           ["users"] "a"
           [("users_a_x", JNull); ("users_a_y", JDict [])]
           eq_refl "users_a_x" JNull).
  apply elem_of_cons. left. reflexivity.
Defined.

Lemma ignored_iff_no_properties_witness :
  exists st',
    sample_process (Sample.users (JDict Sample.catalog)) "raw_users"
      Sample.empty_state
    = Ok (Some ("{{ ref('users') }}", [Sample.addresses_child]), st')
    /\ (Some ("{{ ref('users') }}", [Sample.addresses_child]) = None
        <-> truthy (Sample.users (JDict Sample.catalog)).(properties)
            = false).
Proof.
  eassert (E : sample_process (Sample.users (JDict Sample.catalog))
                 "raw_users" Sample.empty_state
               = Ok (Some ("{{ ref('users') }}", [Sample.addresses_child]),
                     _))
    by (vm_compute; reflexivity).
  eexists. split; [exact E|].
  exact (ignored_iff_no_properties _ _ _ _ _ _ _ _ _ _ _ _ _ _ _ _ _ _ E).
Defined.
